(** * The prompt-tools controller (src/core/controller.py)

    The [Controller] class owns the name of the current preset and drives
    three managers: a presets manager (the preset store), a prompts manager
    (the activation tracker) and a groups manager (the group registry).
    Every command method wraps its body in [try: ... except Exception],
    so the embedding threads both the mutable state and Python exceptions:
    a computation is a function from a state to the state it leaves behind
    together with either a value or a raised exception.  State changes made
    before an exception is raised stay in place, as they do in Python.

    The three manager classes live in core/presets.py, core/prompts.py and
    core/groups.py.  The controller is written against their interface
    ([PresetsManager.Ops], [PromptsManager.Ops], [GroupsManager.Ops]); the
    module [Model] gives the implementation described by the specification. *)

From Stdlib Require Import ZArith String Ascii List Lia.
From stdpp Require Import base option list gmap strings sorting.

Open Scope string_scope.
Open Scope list_scope.
Open Scope Z_scope.

(** ** Prompts

    A prompt is a dictionary with the keys of the data model: a name, a
    content and an origin.  Every key is present, so the defaults of
    [prompt.get('name', ...)] and [prompt.get('content', '')] never apply and
    a prompt is never the empty (false) dictionary.  Python compares
    dictionaries by value, which is Leibniz equality on the record. *)

Module Prompt.

Inductive origin : Type := extracted | user_created.

Record t : Type := mk { name : string; content : string; origin_of : origin }.

#[global] Instance origin_eq_dec : EqDecision origin.
Proof. solve_decision. Defined.

#[global] Instance eq_dec : EqDecision t.
Proof. solve_decision. Defined.

End Prompt.

(** ** Exceptions and stateful computations *)

(** An exception object whose class derives from [Exception]; [kind] is the
    class name.  These are the exceptions an [except Exception] clause
    catches. *)
Inductive exn : Type := Exception (kind : string).

Inductive res (A : Type) : Type :=
| Ret (a : A)
| Raise (e : exn).

Arguments Ret {A} a.
Arguments Raise {A} e.

Definition Py (S A : Type) : Type := S -> S * res A.

Definition ret {S A : Type} (a : A) : Py S A := fun s => (s, Ret a).

Definition raise {S A : Type} (e : exn) : Py S A := fun s => (s, Raise e).

Definition bind {S A B : Type} (m : Py S A) (k : A -> Py S B) : Py S B :=
  fun s =>
    match m s with
    | (s', Ret a) => k a s'
    | (s', Raise e) => (s', Raise e)
    end.

(** [try: body except Exception as e: handler e]. *)
Definition try_except {S A : Type} (body : Py S A) (handler : exn -> Py S A) : Py S A :=
  fun s =>
    match body s with
    | (s', Ret a) => (s', Ret a)
    | (s', Raise e) => handler e s'
    end.

Definition read {S A : Type} (f : S -> A) : Py S A := fun s => (s, Ret (f s)).

Definition update {S : Type} (f : S -> S) : Py S unit := fun s => (f s, Ret tt).

Declare Scope py_scope.
Delimit Scope py_scope with py.

Notation "x <- m ;; k" := (bind m (fun x => k))
  (at level 100, m at next level, k at level 200, right associativity) : py_scope.

Notation "'do' m ;; k" := (bind m (fun _ => k))
  (at level 100, m at next level, k at level 200, right associativity) : py_scope.

Open Scope py_scope.

(** The body of a [for x in xs] loop threading an accumulator. *)
Fixpoint for_each {S A B : Type} (xs : list A) (body : B -> A -> Py S B) (acc : B) : Py S B :=
  match xs with
  | [] => ret acc
  | x :: xs' => acc' <- body acc x ;; for_each xs' body acc'
  end.

(** [l[i]] on a Python list: negative indices count from the end, anything
    outside [-len, len) raises IndexError. *)
Definition py_getitem {S A : Type} (l : list A) (i : Z) : Py S A :=
  let n := Z.of_nat (length l) in
  let j := if bool_decide (i < 0) then i + n else i in
  if bool_decide (0 <= j) then
    match l !! Z.to_nat j with
    | Some x => ret x
    | None => raise (Exception "IndexError")
    end
  else raise (Exception "IndexError").

(** Truthiness of a string and of a list: empty is false. *)
Definition truthy (s : string) : bool := negb (bool_decide (s = "")).

Definition nonempty {A : Type} (l : list A) : bool :=
  match l with [] => false | _ :: _ => true end.

(** ** Messages

    The second component of every result tuple is a formatted text.  Each
    constructor stands for one message template of controller.py and carries
    the values interpolated into it. *)

Inductive message : Type :=
(* switch_preset *)
| NoPresetsAvailable
| SwitchedToPreset (preset : string)
| InvalidPresetIndex (index : Z)
| SwitchPresetInternalError
(* create_preset *)
| PresetNameEmpty
| PresetCreated (preset : string)
| PresetCreateFailed (preset : string)
| CreatePresetInternalError (preset : string)
(* refresh_prompts *)
| Reloaded (preset_count prompt_count : nat)
| NoPresetsFound
| ExtractionFailed
| RefreshInternalError
(* activate_prompt, activate_multiple_prompts *)
| NoPromptsInPreset
| PromptAlreadyActive (prompt_name : string)
| PromptActivated (prompt_name : string)
| ActivateLogicError
| InvalidPromptIndex (index : Z)
| ActivateInternalError
| IndexListEmpty
| InvalidPromptIndices (invalid : list Z) (max_index : Z)
| ActivatedCount (n : nat)
| AllSelectedAlreadyActive
| ActivateMultipleInternalError
(* activate_prompt_group *)
| GroupNameEmpty
| GroupNotFound (group : string)
| GroupEmpty (group : string)
| GroupActivated (group : string) (n : nat)
| GroupAllActive (group : string)
| ActivateGroupInternalError (group : string)
(* deactivate_prompt, deactivate_multiple_prompts *)
| NoActivePrompts
| PromptDeactivated (prompt_name : string)
| DeactivateLogicError
| InvalidActiveIndex (index : Z)
| DeactivateInternalError
| InvalidActiveIndices (invalid : list Z) (max_index : Z)
| DeactivatedCount (n : nat)
| NothingDeactivated
| DeactivateMultipleInternalError
(* deactivate_prompt_group *)
| NoPresetSelected
| GroupEmptyNothingToClose (group : string)
| GroupIndicesInvalid (group : string)
| GroupDeactivated (group : string) (n : nat)
| GroupNoneActive (group : string)
| DeactivateGroupInternalError (group : string)
(* clear_active_prompts *)
| NothingActive
| Cleared (count : nat)
| ClearInternalError
(* add_prompt, update_prompt, delete_prompt *)
| PromptNameEmpty
| PromptContentEmpty
| PromptAdded (prompt_name : string)
| AddPromptFailed
| AddPromptInternalError
| PromptUpdated (prompt_name : string)
| UpdatePromptFailed
| UpdatePromptInternalError
| PromptDeleted (prompt_name : string)
| DeletePromptFailed
| DeletePromptInternalError
(* create_prompt_group, update_prompt_group, delete_prompt_group *)
| GroupCreated (group : string)
| GroupCreateFailed (group : string)
| CreateGroupInternalError (group : string)
| GroupDoesNotExist (group : string)
| GroupUpdated (group : string)
| GroupUpdateFailed (group : string)
| UpdateGroupInternalError (group : string)
| GroupDeleted (group : string)
| GroupDeleteFailed (group : string)
| DeleteGroupInternalError (group : string).

(** The statistics dictionary of [refresh_prompts]; the empty dictionary
    returned on failure is [None] in [option Stats]. *)
Record Stats : Type := { preset_count : nat; prompt_count : nat }.

(** ** The managers' interface

    One state type [MS] stands for the three manager objects and the files
    they read and write.  A method takes that state to the new state and
    either its return value or the exception it raised; an attribute read
    directly by the controller is a projection. *)

Module PresetsManager.

Class Ops (MS : Type) : Type := {
  load_presets : MS -> MS * res unit;
  extract_prompts : MS -> MS * res bool;
  get_preset_list : MS -> MS * res (list string);
  get_prompts : string -> MS -> MS * res (list Prompt.t);
  get_prefix : string -> MS -> MS * res string;
  create_preset : string -> MS -> MS * res bool;
  (* the attribute [presets]: preset name -> prompt list, in dictionary order *)
  presets : MS -> list (string * list Prompt.t)
}.

End PresetsManager.

Module PromptsManager.

Class Ops (MS : Type) : Type := {
  (* the attribute [active_prompts] *)
  active_prompts : MS -> list Prompt.t;
  activate_prompts : list Prompt.t -> list Z -> MS -> MS * res (list Prompt.t);
  deactivate_prompt : Z -> MS -> MS * res (option Prompt.t);
  deactivate_prompts_by_reference : list Prompt.t -> MS -> MS * res (list Prompt.t);
  clear_active_prompts : MS -> MS * res nat;
  save_activation_state : string -> list Prompt.t -> MS -> MS * res bool;
  load_activation_state : string -> list Prompt.t -> MS -> MS * res unit;
  add_prompt_to_preset :
    string -> string -> string -> list (string * list Prompt.t) -> MS -> MS * res (option Prompt.t);
  update_prompt :
    Z -> string -> string -> string -> list Prompt.t -> MS -> MS * res (option Prompt.t);
  delete_prompt : Z -> string -> list Prompt.t -> MS -> MS * res (option Prompt.t)
}.

End PromptsManager.

Module GroupsManager.

Class Ops (MS : Type) : Type := {
  (* the attribute [prompt_groups], read and assigned by the controller *)
  prompt_groups : MS -> gmap string (list Z);
  set_prompt_groups : gmap string (list Z) -> MS -> MS;
  load_prompt_groups : string -> MS -> MS * res unit;
  get_all_groups : MS -> MS * res (gmap string (list Z));
  get_prompt_group : string -> MS -> MS * res (option (list Z));
  create_prompt_group : string -> list Z -> string -> list Prompt.t -> MS -> MS * res bool;
  update_prompt_group : string -> list Z -> string -> list Prompt.t -> MS -> MS * res bool;
  delete_prompt_group : string -> string -> MS -> MS * res bool
}.

End GroupsManager.

(** ** The controller *)

Module Controller.

(** The controller object: the attribute [current_preset_name] and the three
    managers.  The two folder paths are only handed to the managers when the
    object is built. *)
Record t (MS : Type) : Type := mk { current_preset_name : string; managers : MS }.

Arguments mk {MS} _ _.
Arguments current_preset_name {MS} _.
Arguments managers {MS} _.

Section Methods.

Context {MS : Type}.
Context `{!PresetsManager.Ops MS, !PromptsManager.Ops MS, !GroupsManager.Ops MS}.

(** A call of a manager method, and a read of a manager attribute. *)
Definition call {A : Type} (method : MS -> MS * res A) : Py (t MS) A :=
  fun self =>
    let '(ms, r) := method (managers self) in
    (mk (current_preset_name self) ms, r).

Definition attr {A : Type} (f : MS -> A) : Py (t MS) A :=
  read (fun self => f (managers self)).

Definition set_current_preset_name (name : string) : Py (t MS) unit :=
  update (fun self => mk name (managers self)).

Definition get_preset_list : Py (t MS) (list string) :=
  call PresetsManager.get_preset_list.

Definition get_current_preset_name : Py (t MS) string :=
  read current_preset_name.

Definition get_current_prompts : Py (t MS) (list Prompt.t) :=
  cur <- read current_preset_name ;;
  if negb (truthy cur) then ret []
  else call (PresetsManager.get_prompts cur).

Definition get_current_prefix : Py (t MS) string :=
  cur <- read current_preset_name ;;
  if negb (truthy cur) then ret ""
  else call (PresetsManager.get_prefix cur).

Definition get_active_prompts : Py (t MS) (list Prompt.t) :=
  attr PromptsManager.active_prompts.

Definition switch_preset (index : Z) : Py (t MS) (bool * message) :=
  try_except
    (presets <- get_preset_list ;;
     if negb (nonempty presets) then ret (false, NoPresetsAvailable)
     else if bool_decide (0 <= index < Z.of_nat (length presets)) then
       do call PromptsManager.clear_active_prompts ;;
       new_preset <- py_getitem presets index ;;
       do set_current_preset_name new_preset ;;
       cur <- read current_preset_name ;;
       do call (GroupsManager.load_prompt_groups cur) ;;
       current_prompts <- get_current_prompts ;;
       cur <- read current_preset_name ;;
       do call (PromptsManager.load_activation_state cur current_prompts) ;;
       cur <- read current_preset_name ;;
       ret (true, SwitchedToPreset cur)
     else ret (false, InvalidPresetIndex index))
    (fun _ => ret (false, SwitchPresetInternalError)).

Definition create_preset (name : string) : Py (t MS) (bool * message) :=
  try_except
    (if negb (truthy name) then ret (false, PresetNameEmpty)
     else
       created <- call (PresetsManager.create_preset name) ;;
       if created : bool then
         do set_current_preset_name name ;;
         do call PromptsManager.clear_active_prompts ;;
         do update (fun self =>
              mk (current_preset_name self)
                 (GroupsManager.set_prompt_groups ∅ (managers self))) ;;
         ret (true, PresetCreated name)
       else ret (false, PresetCreateFailed name))
    (fun _ => ret (false, CreatePresetInternalError name)).

Definition refresh_prompts : Py (t MS) (bool * message * option Stats) :=
  try_except
    (extracted <- call PresetsManager.extract_prompts ;;
     if extracted : bool then
       do call PresetsManager.load_presets ;;
       do call PromptsManager.clear_active_prompts ;;
       preset_list <- get_preset_list ;;
       do (if nonempty preset_list then
             first <- py_getitem preset_list 0 ;;
             do set_current_preset_name first ;;
             cur <- read current_preset_name ;;
             call (GroupsManager.load_prompt_groups cur)
           else set_current_preset_name "") ;;
       presets <- attr PresetsManager.presets ;;
       let stats :=
         {| preset_count := length presets;
            prompt_count := sum_list (length <$> presets.*2) |} in
       if bool_decide (0 < preset_count stats)%nat
       then ret (true, Reloaded (preset_count stats) (prompt_count stats), Some stats)
       else ret (true, NoPresetsFound, Some stats)
     else ret (false, ExtractionFailed, None))
    (fun _ => ret (false, RefreshInternalError, None)).

Definition activate_prompt (index : Z) : Py (t MS) (bool * message * option Prompt.t) :=
  try_except
    (all_prompts <- get_current_prompts ;;
     if negb (nonempty all_prompts) then ret (false, NoPromptsInPreset, None)
     else if bool_decide (0 <= index < Z.of_nat (length all_prompts)) then
       prompt <- py_getitem all_prompts index ;;
       let prompt_name := Prompt.name prompt in
       active <- attr PromptsManager.active_prompts ;;
       if bool_decide (prompt ∈ active)
       then ret (true, PromptAlreadyActive prompt_name, Some prompt)
       else
         newly_active <- call (PromptsManager.activate_prompts all_prompts [index]) ;;
         if nonempty newly_active then
           cur <- read current_preset_name ;;
           do call (PromptsManager.save_activation_state cur all_prompts) ;;
           ret (true, PromptActivated prompt_name, Some prompt)
         else ret (false, ActivateLogicError, None)
     else ret (false, InvalidPromptIndex index, None))
    (fun _ => ret (false, ActivateInternalError, None)).

Definition activate_multiple_prompts (indices : list Z)
  : Py (t MS) (bool * message * list Prompt.t) :=
  try_except
    (if negb (nonempty indices) then ret (false, IndexListEmpty, [])
     else
       all_prompts <- get_current_prompts ;;
       if negb (nonempty all_prompts) then ret (false, NoPromptsInPreset, [])
       else
         let max_index := Z.of_nat (length all_prompts) - 1 in
         let invalid_indices := filter (fun idx => ¬ (0 <= idx <= max_index)) indices in
         if nonempty invalid_indices
         then ret (false, InvalidPromptIndices invalid_indices max_index, [])
         else
           newly_active <- call (PromptsManager.activate_prompts all_prompts indices) ;;
           if nonempty newly_active then
             cur <- read current_preset_name ;;
             do call (PromptsManager.save_activation_state cur all_prompts) ;;
             ret (true, ActivatedCount (length newly_active), newly_active)
           else ret (true, AllSelectedAlreadyActive, []))
    (fun _ => ret (false, ActivateMultipleInternalError, [])).

Definition activate_prompt_group (group_name : string)
  : Py (t MS) (bool * message * list Prompt.t) :=
  try_except
    (all_prompts <- get_current_prompts ;;
     if negb (nonempty all_prompts) then ret (false, NoPromptsInPreset, [])
     else if negb (truthy group_name) then ret (false, GroupNameEmpty, [])
     else
       found <- call (GroupsManager.get_prompt_group group_name) ;;
       match found with
       | None => ret (false, GroupNotFound group_name, [])
       | Some indices =>
         if negb (nonempty indices) then ret (false, GroupEmpty group_name, [])
         else
           newly_active <- call (PromptsManager.activate_prompts all_prompts indices) ;;
           if nonempty newly_active
           then ret (true, GroupActivated group_name (length newly_active), newly_active)
           else ret (true, GroupAllActive group_name, [])
       end)
    (fun _ => ret (false, ActivateGroupInternalError group_name, [])).

Definition deactivate_prompt (index : Z) : Py (t MS) (bool * message * option Prompt.t) :=
  try_except
    (active <- attr PromptsManager.active_prompts ;;
     if negb (nonempty active) then ret (false, NoActivePrompts, None)
     else if bool_decide (0 <= index < Z.of_nat (length active)) then
       removed <- call (PromptsManager.deactivate_prompt index) ;;
       match removed with
       | Some removed_prompt =>
         all_prompts <- get_current_prompts ;;
         cur <- read current_preset_name ;;
         do call (PromptsManager.save_activation_state cur all_prompts) ;;
         ret (true, PromptDeactivated (Prompt.name removed_prompt), Some removed_prompt)
       | None => ret (false, DeactivateLogicError, None)
       end
     else ret (false, InvalidActiveIndex index, None))
    (fun _ => ret (false, DeactivateInternalError, None)).

Definition deactivate_multiple_prompts (indices : list Z)
  : Py (t MS) (bool * message * list Prompt.t) :=
  try_except
    (if negb (nonempty indices) then ret (false, IndexListEmpty, [])
     else
       active <- attr PromptsManager.active_prompts ;;
       if negb (nonempty active) then ret (false, NoActivePrompts, [])
       else
         let max_index := Z.of_nat (length active) - 1 in
         let valid_indices := filter (fun idx => 0 <= idx <= max_index) indices in
         let invalid_indices := filter (fun idx => ¬ (0 <= idx <= max_index)) indices in
         if nonempty invalid_indices && negb (nonempty valid_indices)
         then ret (false, InvalidActiveIndices invalid_indices max_index, [])
         else
           (* valid_indices.sort(reverse=True) *)
           let valid_indices := merge_sort Z.ge valid_indices in
           deactivated_prompts <-
             for_each valid_indices
               (fun deactivated idx =>
                  removed <- call (PromptsManager.deactivate_prompt idx) ;;
                  match removed with
                  | Some removed_prompt => ret (deactivated ++ [removed_prompt])
                  | None => ret deactivated
                  end) [] ;;
           if nonempty deactivated_prompts
           then ret (true, DeactivatedCount (length deactivated_prompts), deactivated_prompts)
           else ret (false, NothingDeactivated, []))
    (fun _ => ret (false, DeactivateMultipleInternalError, [])).

Definition deactivate_prompt_group (group_name : string)
  : Py (t MS) (bool * message * list Prompt.t) :=
  try_except
    (cur <- read current_preset_name ;;
     if negb (truthy cur) then ret (false, NoPresetSelected, [])
     else if negb (truthy group_name) then ret (false, GroupNameEmpty, [])
     else
       found <- call (GroupsManager.get_prompt_group group_name) ;;
       match found with
       | None => ret (false, GroupNotFound group_name, [])
       | Some indices =>
         if negb (nonempty indices) then ret (true, GroupEmptyNothingToClose group_name, [])
         else
           all_prompts <- get_current_prompts ;;
           if negb (nonempty all_prompts) then ret (false, NoPromptsInPreset, [])
           else
             let max_index := Z.of_nat (length all_prompts) - 1 in
             prompts_to_deactivate <-
               for_each indices
                 (fun prompts idx =>
                    if bool_decide (0 <= idx <= max_index) then
                      prompt <- py_getitem all_prompts idx ;;
                      ret (prompts ++ [prompt])
                    else ret prompts) [] ;;
             if negb (nonempty prompts_to_deactivate)
             then ret (false, GroupIndicesInvalid group_name, [])
             else
               deactivated_prompts <-
                 call (PromptsManager.deactivate_prompts_by_reference prompts_to_deactivate) ;;
               if nonempty deactivated_prompts
               then ret (true, GroupDeactivated group_name (length deactivated_prompts),
                         deactivated_prompts)
               else ret (true, GroupNoneActive group_name, [])
       end)
    (fun _ => ret (false, DeactivateGroupInternalError group_name, [])).

Definition clear_active_prompts : Py (t MS) (bool * message * Z) :=
  try_except
    (count <- call PromptsManager.clear_active_prompts ;;
     if bool_decide (count = 0%nat) then ret (true, NothingActive, 0)
     else ret (true, Cleared count, Z.of_nat count))
    (fun _ => ret (false, ClearInternalError, -1)).

Definition add_prompt (name content : string) : Py (t MS) (bool * message * option Prompt.t) :=
  try_except
    (cur <- read current_preset_name ;;
     if negb (truthy cur) then ret (false, NoPresetSelected, None)
     else if negb (truthy name) then ret (false, PromptNameEmpty, None)
     else if negb (truthy content) then ret (false, PromptContentEmpty, None)
     else
       presets <- attr PresetsManager.presets ;;
       added <- call (PromptsManager.add_prompt_to_preset name content cur presets) ;;
       match added with
       | Some prompt => ret (true, PromptAdded name, Some prompt)
       | None => ret (false, AddPromptFailed, None)
       end)
    (fun _ => ret (false, AddPromptInternalError, None)).

Definition update_prompt (index : Z) (name content : string)
  : Py (t MS) (bool * message * option Prompt.t) :=
  try_except
    (cur <- read current_preset_name ;;
     if negb (truthy cur) then ret (false, NoPresetSelected, None)
     else if negb (truthy name) then ret (false, PromptNameEmpty, None)
     else if negb (truthy content) then ret (false, PromptContentEmpty, None)
     else
       all_prompts <- get_current_prompts ;;
       if negb (nonempty all_prompts) then ret (false, NoPromptsInPreset, None)
       else if negb (bool_decide (0 <= index < Z.of_nat (length all_prompts)))
       then ret (false, InvalidPromptIndex index, None)
       else
         original_prompt <- py_getitem all_prompts index ;;
         cur <- read current_preset_name ;;
         updated <- call (PromptsManager.update_prompt index name content cur all_prompts) ;;
         match updated with
         | Some updated_prompt => ret (true, PromptUpdated name, Some updated_prompt)
         | None => ret (false, UpdatePromptFailed, None)
         end)
    (fun _ => ret (false, UpdatePromptInternalError, None)).

Definition delete_prompt (index : Z) : Py (t MS) (bool * message * option Prompt.t) :=
  try_except
    (cur <- read current_preset_name ;;
     if negb (truthy cur) then ret (false, NoPresetSelected, None)
     else
       all_prompts <- get_current_prompts ;;
       if negb (nonempty all_prompts) then ret (false, NoPromptsInPreset, None)
       else if negb (bool_decide (0 <= index < Z.of_nat (length all_prompts)))
       then ret (false, InvalidPromptIndex index, None)
       else
         cur <- read current_preset_name ;;
         deleted <- call (PromptsManager.delete_prompt index cur all_prompts) ;;
         match deleted with
         | Some deleted_prompt =>
           ret (true, PromptDeleted (Prompt.name deleted_prompt), Some deleted_prompt)
         | None => ret (false, DeletePromptFailed, None)
         end)
    (fun _ => ret (false, DeletePromptInternalError, None)).

Definition get_prompt_groups : Py (t MS) (gmap string (list Z)) :=
  call GroupsManager.get_all_groups.

Definition get_prompt_group (name : string) : Py (t MS) (option (list Z)) :=
  call (GroupsManager.get_prompt_group name).

Definition create_prompt_group (name : string) (indices : list Z) : Py (t MS) (bool * message) :=
  try_except
    (cur <- read current_preset_name ;;
     if negb (truthy cur) then ret (false, NoPresetSelected)
     else if negb (truthy name) then ret (false, GroupNameEmpty)
     else
       all_prompts <- get_current_prompts ;;
       cur <- read current_preset_name ;;
       created <- call (GroupsManager.create_prompt_group name indices cur all_prompts) ;;
       if created : bool then ret (true, GroupCreated name)
       else ret (false, GroupCreateFailed name))
    (fun _ => ret (false, CreateGroupInternalError name)).

Definition update_prompt_group (name : string) (indices : list Z) : Py (t MS) (bool * message) :=
  try_except
    (cur <- read current_preset_name ;;
     if negb (truthy cur) then ret (false, NoPresetSelected)
     else
       groups <- attr GroupsManager.prompt_groups ;;
       if bool_decide (groups !! name = None) then ret (false, GroupDoesNotExist name)
       else
         all_prompts <- get_current_prompts ;;
         cur <- read current_preset_name ;;
         updated <- call (GroupsManager.update_prompt_group name indices cur all_prompts) ;;
         if updated : bool then ret (true, GroupUpdated name)
         else ret (false, GroupUpdateFailed name))
    (fun _ => ret (false, UpdateGroupInternalError name)).

Definition delete_prompt_group (name : string) : Py (t MS) (bool * message) :=
  try_except
    (cur <- read current_preset_name ;;
     if negb (truthy cur) then ret (false, NoPresetSelected)
     else
       groups <- attr GroupsManager.prompt_groups ;;
       if bool_decide (groups !! name = None) then ret (false, GroupDoesNotExist name)
       else
         cur <- read current_preset_name ;;
         deleted <- call (GroupsManager.delete_prompt_group name cur) ;;
         if deleted : bool then ret (true, GroupDeleted name)
         else ret (false, GroupDeleteFailed name))
    (fun _ => ret (false, DeleteGroupInternalError name)).

(** The blank line that separates the segments of the system prompt. *)
Definition blank_line : string := String "010" (String "010" EmptyString).

(** [process_llm_request] has no exception handler and returns the pair of
    texts, not a result tuple.  Its [def] line is indented by three spaces in
    controller.py where the other methods have four; it is read as the method
    of the class that main.py calls. *)
Definition process_llm_request (system_prompt user_prompt : string)
  : Py (t MS) (string * string) :=
  active_prompts <- get_active_prompts ;;
  current_prefix <- get_current_prefix ;;
  let modified_user := user_prompt in
  let parts_to_prepend := if truthy current_prefix then [current_prefix] else [] in
  let parts_to_prepend :=
    if nonempty active_prompts then
      foldl (fun parts prompt =>
               let content := Prompt.content prompt in
               if truthy content then parts ++ [content] else parts)
            parts_to_prepend active_prompts
    else parts_to_prepend in
  let modified_system :=
    if nonempty parts_to_prepend then
      let prepend_str := String.concat blank_line parts_to_prepend in
      if truthy system_prompt then prepend_str +:+ blank_line +:+ system_prompt
      else prepend_str
    else system_prompt in
  ret (modified_system, modified_user).

Definition terminate : Py (t MS) unit :=
  do call PromptsManager.clear_active_prompts ;;
  ret tt.

End Methods.

End Controller.

(** ** The public operations as one type

    Every public method of the class, with what it returns.  The command
    methods return a result tuple (success flag, message and, for most, a
    payload); the accessors, [process_llm_request] and [terminate] return a
    plain value. *)

Inductive payload : Type :=
| NoPayload
| StatsPayload (stats : option Stats)
| PromptPayload (prompt : option Prompt.t)
| PromptsPayload (prompts : list Prompt.t)
| CountPayload (count : Z).

Inductive retval : Type :=
| ResultTuple (success : bool) (msg : message) (extra : payload)
| NameList (names : list string)
| Text (s : string)
| PromptList (prompts : list Prompt.t)
| GroupMap (groups : gmap string (list Z))
| OptIndices (indices : option (list Z))
| TextPair (system user : string)
| PyNone.

Inductive operation : Type :=
| op_get_preset_list
| op_get_current_preset_name
| op_switch_preset (index : Z)
| op_create_preset (name : string)
| op_refresh_prompts
| op_get_current_prompts
| op_get_current_prefix
| op_get_active_prompts
| op_activate_prompt (index : Z)
| op_activate_multiple_prompts (indices : list Z)
| op_activate_prompt_group (group_name : string)
| op_deactivate_prompt (index : Z)
| op_deactivate_multiple_prompts (indices : list Z)
| op_deactivate_prompt_group (group_name : string)
| op_clear_active_prompts
| op_add_prompt (name content : string)
| op_update_prompt (index : Z) (name content : string)
| op_delete_prompt (index : Z)
| op_get_prompt_groups
| op_get_prompt_group (name : string)
| op_create_prompt_group (name : string) (indices : list Z)
| op_update_prompt_group (name : string) (indices : list Z)
| op_delete_prompt_group (name : string)
| op_process_llm_request (system_prompt user_prompt : string)
| op_terminate.



Definition returning {S A B : Type} (f : A -> B) (m : Py S A) : Py S B :=
  x <- m ;; ret (f x).

Definition tuple2 (r : bool * message) : retval :=
  ResultTuple r.1 r.2 NoPayload.

Definition tuple3 {A : Type} (f : A -> payload) (r : bool * message * A) : retval :=
  ResultTuple r.1.1 r.1.2 (f r.2).

Section Invoke.

Context {MS : Type}.
Context `{!PresetsManager.Ops MS, !PromptsManager.Ops MS, !GroupsManager.Ops MS}.

Definition invoke (op : operation) : Py (Controller.t MS) retval :=
  match op with
  | op_get_preset_list => returning NameList Controller.get_preset_list
  | op_get_current_preset_name => returning Text Controller.get_current_preset_name
  | op_switch_preset index => returning tuple2 (Controller.switch_preset index)
  | op_create_preset name => returning tuple2 (Controller.create_preset name)
  | op_refresh_prompts => returning (tuple3 StatsPayload) Controller.refresh_prompts
  | op_get_current_prompts => returning PromptList Controller.get_current_prompts
  | op_get_current_prefix => returning Text Controller.get_current_prefix
  | op_get_active_prompts => returning PromptList Controller.get_active_prompts
  | op_activate_prompt index =>
      returning (tuple3 PromptPayload) (Controller.activate_prompt index)
  | op_activate_multiple_prompts indices =>
      returning (tuple3 PromptsPayload) (Controller.activate_multiple_prompts indices)
  | op_activate_prompt_group group_name =>
      returning (tuple3 PromptsPayload) (Controller.activate_prompt_group group_name)
  | op_deactivate_prompt index =>
      returning (tuple3 PromptPayload) (Controller.deactivate_prompt index)
  | op_deactivate_multiple_prompts indices =>
      returning (tuple3 PromptsPayload) (Controller.deactivate_multiple_prompts indices)
  | op_deactivate_prompt_group group_name =>
      returning (tuple3 PromptsPayload) (Controller.deactivate_prompt_group group_name)
  | op_clear_active_prompts => returning (tuple3 CountPayload) Controller.clear_active_prompts
  | op_add_prompt name content =>
      returning (tuple3 PromptPayload) (Controller.add_prompt name content)
  | op_update_prompt index name content =>
      returning (tuple3 PromptPayload) (Controller.update_prompt index name content)
  | op_delete_prompt index =>
      returning (tuple3 PromptPayload) (Controller.delete_prompt index)
  | op_get_prompt_groups => returning GroupMap Controller.get_prompt_groups
  | op_get_prompt_group name => returning OptIndices (Controller.get_prompt_group name)
  | op_create_prompt_group name indices =>
      returning tuple2 (Controller.create_prompt_group name indices)
  | op_update_prompt_group name indices =>
      returning tuple2 (Controller.update_prompt_group name indices)
  | op_delete_prompt_group name => returning tuple2 (Controller.delete_prompt_group name)
  | op_process_llm_request system_prompt user_prompt =>
      returning (fun r => TextPair r.1 r.2)
                (Controller.process_llm_request system_prompt user_prompt)
  | op_terminate => returning (fun _ => PyNone) Controller.terminate
  end.

End Invoke.

(** ** The managers of the specification

    core/presets.py, core/prompts.py and core/groups.py are described by the
    specification as the PresetStore, the ActivationTracker and the
    GroupRegistry.  [World] holds what the three own, in memory and on disk. *)

Module Model.

(** Modelled from the spec: core/presets.py is absent.  A preset of the data
    model: its ordered prompts and its prefix; the name is the key it is
    stored under. *)
Record Preset : Type := { prompts : list Prompt.t; prefix : string }.

(** Modelled from the spec: core/presets.py, core/prompts.py, core/groups.py
    and core/extractor.py are absent.  What the PresetStore, the
    ActivationTracker and the GroupRegistry own, together with the two
    external collaborators: the extraction and the JSON persistence. *)
Record World : Type := mkWorld {
  (* PresetStore: the loaded mapping preset name -> preset, in order *)
  store : list (string * Preset);
  (* the durable store the extraction collaborator populates *)
  durable : list (string * Preset);
  (* what the next run of the extraction collaborator produces;
     None is an extraction I/O failure *)
  extraction : option (list (string * Preset));
  (* ActivationTracker: the ActiveSet, and the persisted markers per preset *)
  active : list Prompt.t;
  markers : gmap string (list Prompt.t);
  (* GroupRegistry: the groups of the loaded preset, and the persisted ones *)
  groups : gmap string (list Z);
  saved_groups : gmap string (gmap string (list Z));
  (* whether write_json succeeds *)
  writable : bool
}.

(** Field updates of [World]. *)
Definition set_store (v : list (string * Preset)) (w : World) : World :=
  mkWorld v (durable w) (extraction w) (active w) (markers w) (groups w)
          (saved_groups w) (writable w).

Definition set_durable (v : list (string * Preset)) (w : World) : World :=
  mkWorld (store w) v (extraction w) (active w) (markers w) (groups w)
          (saved_groups w) (writable w).

Definition set_active (v : list Prompt.t) (w : World) : World :=
  mkWorld (store w) (durable w) (extraction w) v (markers w) (groups w)
          (saved_groups w) (writable w).

Definition set_markers (v : gmap string (list Prompt.t)) (w : World) : World :=
  mkWorld (store w) (durable w) (extraction w) (active w) v (groups w)
          (saved_groups w) (writable w).

Definition set_groups (v : gmap string (list Z)) (w : World) : World :=
  mkWorld (store w) (durable w) (extraction w) (active w) (markers w) v
          (saved_groups w) (writable w).

Definition set_saved_groups (v : gmap string (gmap string (list Z))) (w : World) : World :=
  mkWorld (store w) (durable w) (extraction w) (active w) (markers w) (groups w)
          v (writable w).

(** Lookup and update of a preset by name in the ordered mapping. *)
Fixpoint find_preset (name : string) (st : list (string * Preset)) : option Preset :=
  match st with
  | [] => None
  | (n, p) :: st' => if bool_decide (n = name) then Some p else find_preset name st'
  end.

Fixpoint alter_preset (f : Preset -> Preset) (name : string) (st : list (string * Preset))
  : list (string * Preset) :=
  match st with
  | [] => []
  | (n, p) :: st' =>
    if bool_decide (n = name) then (n, f p) :: st' else (n, p) :: alter_preset f name st'
  end.

(** An index valid for a list: 0 <= idx < len. *)
Definition in_range {A : Type} (l : list A) (idx : Z) : Prop :=
  0 <= idx < Z.of_nat (length l).

#[global] Instance in_range_dec {A : Type} (l : list A) (idx : Z) : Decision (in_range l idx).
Proof. unfold in_range. apply _. Defined.

(** Deduplication that keeps the first occurrence of every index. *)
Definition dedup_first (indices : list Z) : list Z :=
  foldl (fun seen idx => if bool_decide (idx ∈ seen) then seen else seen ++ [idx]) [] indices.

Module PresetStore.

(** Modelled from the spec: core/presets.py is absent.  [list_preset_names]
    gives the ordered sequence of preset names. *)
Definition list_preset_names : Py World (list string) :=
  read (fun w => (store w).*1).

(** Modelled from the spec: core/presets.py is absent.  [get_prompts] gives
    the preset's ordered prompts, empty if the name is unknown. *)
Definition get_prompts (name : string) : Py World (list Prompt.t) :=
  read (fun w => from_option prompts [] (find_preset name (store w))).

(** Modelled from the spec: core/presets.py is absent.  [get_prefix] gives
    the preset's prefix text. *)
Definition get_prefix (name : string) : Py World string :=
  read (fun w => from_option prefix "" (find_preset name (store w))).

(** Modelled from the spec: core/presets.py is absent.  [create_preset]
    fails if the name is empty or already exists. *)
Definition create_preset (name : string) : Py World bool :=
  st <- read store ;;
  if bool_decide (name = "") || bool_decide (is_Some (find_preset name st)) then ret false
  else
    do update (fun w =>
         set_durable (durable w ++ [(name, {| prompts := []; prefix := "" |})])
           (set_store (st ++ [(name, {| prompts := []; prefix := "" |})]) w)) ;;
    ret true.

(** Modelled from the spec: core/presets.py and core/extractor.py are absent.
    The first half of [refresh]: the extraction collaborator runs and, unless
    it hits an I/O failure, replaces the durable store. *)
Definition extract : Py World bool :=
  outcome <- read extraction ;;
  match outcome with
  | Some st => do update (set_durable st) ;; ret true
  | None => ret false
  end.

(** Modelled from the spec: core/presets.py is absent.  The second half of
    [refresh]: the whole store is replaced by what the durable store holds. *)
Definition load : Py World unit :=
  update (fun w => set_store (durable w) w).

(** Modelled from the spec: core/presets.py is absent.  The attribute
    [presets] of the presets manager: the mapping from preset name to prompt
    list that the store owns. *)
Definition presets (w : World) : list (string * list Prompt.t) :=
  (fun entry => (entry.1, prompts entry.2)) <$> store w.

End PresetStore.

Module ActivationTracker.

(** Modelled from the spec: core/prompts.py is absent.  [activate]: for each
    index whose prompt value is not already in the ActiveSet, append it,
    keeping the input order; the result is the subsequence appended.  The
    caller validates the indices; an index outside the prompt list is outside
    the contract and modelled as the IndexError of an unchecked list
    access.  [activate_one] is the step for one index. *)
Definition activate_one (all_prompts : list Prompt.t) (appended : list Prompt.t) (idx : Z)
  : Py World (list Prompt.t) :=
  if bool_decide (in_range all_prompts idx) then
    prompt <- py_getitem all_prompts idx ;;
    act <- read active ;;
    if bool_decide (prompt ∈ act) then ret appended
    else
      do update (set_active (act ++ [prompt])) ;;
      ret (appended ++ [prompt])
  else raise (Exception "IndexError").

(** Modelled from the spec: core/prompts.py is absent.  [activate] runs the
    step over the indices in input order and returns what was appended. *)
Definition activate (all_prompts : list Prompt.t) (indices : list Z)
  : Py World (list Prompt.t) :=
  for_each indices (activate_one all_prompts) [].

(** Modelled from the spec: core/prompts.py is absent.  [deactivate] removes
    and returns the entry at that position of the ActiveSet, or nothing. *)
Definition deactivate (active_list_index : Z) : Py World (option Prompt.t) :=
  act <- read active ;;
  if bool_decide (in_range act active_list_index) then
    do update (set_active (delete (Z.to_nat active_list_index) act)) ;;
    ret (act !! Z.to_nat active_list_index)
  else ret None.

(** Modelled from the spec: core/prompts.py is absent.  [deactivate_by_value]
    removes the entries that match one of the given prompts by value and
    returns the removed entries. *)
Definition deactivate_by_value (values : list Prompt.t) : Py World (list Prompt.t) :=
  act <- read active ;;
  do update (set_active (filter (fun p => p ∉ values) act)) ;;
  ret (filter (fun p => p ∈ values) act).

(** Modelled from the spec: core/prompts.py is absent.  [clear] empties the
    ActiveSet and returns the number of entries removed. *)
Definition clear : Py World nat :=
  act <- read active ;;
  do update (set_active []) ;;
  ret (length act).

(** Modelled from the spec: core/prompts.py is absent.  [save] snapshots the
    ActiveSet as the persisted markers of the preset; a marker carries the
    fields that identify the prompt by value. *)
Definition save (preset_name : string) (all_prompts : list Prompt.t) : Py World bool :=
  ok <- read writable ;;
  if ok : bool then
    do update (fun w => set_markers (<[preset_name := active w]> (markers w)) w) ;;
    ret true
  else ret false.

(** Modelled from the spec: core/prompts.py is absent.  [load] restores the
    ActiveSet by re-matching the persisted markers against the prompt list by
    value; markers without a match are dropped. *)
Definition load (preset_name : string) (all_prompts : list Prompt.t) : Py World unit :=
  update (fun w =>
    set_active (filter (fun p => p ∈ all_prompts) (default [] (markers w !! preset_name))) w).

(** Modelled from the spec: core/prompts.py is absent.  Adding a prompt
    appends a user-created prompt to the preset's list, in memory and then on
    disk; a failed write leaves the in-memory list changed. *)
Definition add_prompt_to_preset (name content preset_name : string)
    (presets : list (string * list Prompt.t)) : Py World (option Prompt.t) :=
  st <- read store ;;
  match find_preset preset_name st with
  | None => ret None
  | Some _ =>
    let prompt := Prompt.mk name content Prompt.user_created in
    let add := fun p => {| prompts := prompts p ++ [prompt]; prefix := prefix p |} in
    do update (set_store (alter_preset add preset_name st)) ;;
    ok <- read writable ;;
    if ok : bool then
      do update (fun w => set_durable (alter_preset add preset_name (durable w)) w) ;;
      ret (Some prompt)
    else ret None
  end.

(** Modelled from the spec: core/prompts.py is absent.  Updating refuses
    prompts whose origin is extracted. *)
Definition update_prompt (index : Z) (name content preset_name : string)
    (all_prompts : list Prompt.t) : Py World (option Prompt.t) :=
  if bool_decide (in_range all_prompts index) then
    match all_prompts !! Z.to_nat index with
    | Some original =>
      if bool_decide (Prompt.origin_of original = Prompt.user_created) then
        let prompt := Prompt.mk name content Prompt.user_created in
        let change := fun p =>
          {| prompts := <[Z.to_nat index := prompt]> (prompts p); prefix := prefix p |} in
        do update (fun w => set_store (alter_preset change preset_name (store w)) w) ;;
        ok <- read writable ;;
        if ok : bool then
          do update (fun w => set_durable (alter_preset change preset_name (durable w)) w) ;;
          ret (Some prompt)
        else ret None
      else ret None
    | None => ret None
    end
  else ret None.

(** Modelled from the spec: core/prompts.py is absent.  Deleting refuses
    prompts whose origin is extracted. *)
Definition delete_prompt (index : Z) (preset_name : string)
    (all_prompts : list Prompt.t) : Py World (option Prompt.t) :=
  if bool_decide (in_range all_prompts index) then
    match all_prompts !! Z.to_nat index with
    | Some original =>
      if bool_decide (Prompt.origin_of original = Prompt.user_created) then
        let change := fun p =>
          {| prompts := delete (Z.to_nat index) (prompts p); prefix := prefix p |} in
        do update (fun w => set_store (alter_preset change preset_name (store w)) w) ;;
        ok <- read writable ;;
        if ok : bool then
          do update (fun w => set_durable (alter_preset change preset_name (durable w)) w) ;;
          ret (Some original)
        else ret None
      else ret None
    | None => ret None
    end
  else ret None.

End ActivationTracker.

Module GroupRegistry.

(** Modelled from the spec: core/groups.py is absent.  [get_all_groups]
    gives the groups of the loaded preset. *)
Definition get_all_groups : Py World (gmap string (list Z)) := read groups.

(** Modelled from the spec: core/groups.py is absent.  [get_group] gives the
    indices of the group, or nothing when the group does not exist; an
    existing empty group gives the empty list. *)
Definition get_group (name : string) : Py World (option (list Z)) :=
  read (fun w => groups w !! name).

(** Modelled from the spec: core/groups.py is absent.  The implicit save of
    every mutating call: the groups of the preset are persisted, and the save
    fails when the write does. *)
Definition persist (preset_name : string) : Py World bool :=
  ok <- read writable ;;
  if ok : bool then
    do update (fun w => set_saved_groups (<[preset_name := groups w]> (saved_groups w)) w) ;;
    ret true
  else ret false.

(** Modelled from the spec: core/groups.py is absent.  [create] fails if the
    name already exists for the preset, if an index is out of range, or on a
    persistence failure; it deduplicates the indices, keeping first
    occurrences. *)
Definition create (name : string) (indices : list Z) (preset_name : string)
    (all_prompts : list Prompt.t) : Py World bool :=
  gs <- read groups ;;
  if bool_decide (is_Some (gs !! name)) then ret false
  else if negb (forallb (fun idx => bool_decide (in_range all_prompts idx)) indices)
  then ret false
  else
    do update (set_groups (<[name := dedup_first indices]> gs)) ;;
    persist preset_name.

(** Modelled from the spec: core/groups.py is absent.  [update] fails if the
    group does not exist or an index is invalid. *)
Definition update_group (name : string) (indices : list Z) (preset_name : string)
    (all_prompts : list Prompt.t) : Py World bool :=
  gs <- read groups ;;
  if negb (bool_decide (is_Some (gs !! name))) then ret false
  else if negb (forallb (fun idx => bool_decide (in_range all_prompts idx)) indices)
  then ret false
  else
    do update (set_groups (<[name := dedup_first indices]> gs)) ;;
    persist preset_name.

(** Modelled from the spec: core/groups.py is absent.  [delete] removes the
    group and saves. *)
Definition delete_group (name preset_name : string) : Py World bool :=
  gs <- read groups ;;
  if negb (bool_decide (is_Some (gs !! name))) then ret false
  else
    do update (set_groups (delete name gs)) ;;
    persist preset_name.

(** Modelled from the spec: core/groups.py is absent.  [load] replaces the
    groups by the persisted groups of the preset. *)
Definition load (preset_name : string) : Py World unit :=
  update (fun w => set_groups (default ∅ (saved_groups w !! preset_name)) w).

End GroupRegistry.

(** Modelled from the spec: the three absent manager classes, as the
    PresetStore, the ActivationTracker and the GroupRegistry above. *)
#[global] Instance presets_manager : PresetsManager.Ops World := {|
  PresetsManager.load_presets := PresetStore.load;
  PresetsManager.extract_prompts := PresetStore.extract;
  PresetsManager.get_preset_list := PresetStore.list_preset_names;
  PresetsManager.get_prompts := PresetStore.get_prompts;
  PresetsManager.get_prefix := PresetStore.get_prefix;
  PresetsManager.create_preset := PresetStore.create_preset;
  PresetsManager.presets := PresetStore.presets
|}.

#[global] Instance prompts_manager : PromptsManager.Ops World := {|
  PromptsManager.active_prompts := active;
  PromptsManager.activate_prompts := ActivationTracker.activate;
  PromptsManager.deactivate_prompt := ActivationTracker.deactivate;
  PromptsManager.deactivate_prompts_by_reference := ActivationTracker.deactivate_by_value;
  PromptsManager.clear_active_prompts := ActivationTracker.clear;
  PromptsManager.save_activation_state := ActivationTracker.save;
  PromptsManager.load_activation_state := ActivationTracker.load;
  PromptsManager.add_prompt_to_preset := ActivationTracker.add_prompt_to_preset;
  PromptsManager.update_prompt := ActivationTracker.update_prompt;
  PromptsManager.delete_prompt := ActivationTracker.delete_prompt
|}.

#[global] Instance groups_manager : GroupsManager.Ops World := {|
  GroupsManager.prompt_groups := groups;
  GroupsManager.set_prompt_groups := set_groups;
  GroupsManager.load_prompt_groups := GroupRegistry.load;
  GroupsManager.get_all_groups := GroupRegistry.get_all_groups;
  GroupsManager.get_prompt_group := GroupRegistry.get_group;
  GroupsManager.create_prompt_group := GroupRegistry.create;
  GroupsManager.update_prompt_group := GroupRegistry.update_group;
  GroupsManager.delete_prompt_group := GroupRegistry.delete_group
|}.

End Model.

(** ** Notions used to state the properties *)

Import Model.

(** The prepend block in the words of the specification: the prefix if it is
    not empty, then the content of each active prompt. *)
Definition block_as_stated (prefix : string) (active : list Prompt.t) : list string :=
  (if truthy prefix then [prefix] else []) ++ (Prompt.content <$> active).

(** The prepend block the code builds: as above, without the empty contents. *)
Definition prepend_block (prefix : string) (active : list Prompt.t) : list string :=
  (if truthy prefix then [prefix] else [])
  ++ filter (fun c => c <> "") (Prompt.content <$> active).

(** A block joined to the system text: an empty block leaves the text alone,
    an empty text leaves the block alone. *)
Definition join_block (block : list string) (system_text : string) : string :=
  match block with
  | [] => system_text
  | _ :: _ =>
    if truthy system_text
    then String.concat Controller.blank_line block +:+ Controller.blank_line +:+ system_text
    else String.concat Controller.blank_line block
  end.

(** The outcome of group activation, given what the prompts manager did with
    the indices it was handed. *)
Definition group_activation_outcome (group_name : string) (r : res (list Prompt.t))
  : bool * message * list Prompt.t :=
  match r with
  | Ret newly_active =>
    if nonempty newly_active
    then (true, GroupActivated group_name (length newly_active), newly_active)
    else (true, GroupAllActive group_name, [])
  | Raise _ => (false, ActivateGroupInternalError group_name, [])
  end.

(** The prompts of the current preset in the model. *)
Definition current_prompts (self : Controller.t World) : list Prompt.t :=
  if truthy (Controller.current_preset_name self)
  then from_option prompts [] (find_preset (Controller.current_preset_name self)
                                           (store (Controller.managers self)))
  else [].

(** What [activate] appends, as a function of the ActiveSet it starts from. *)
Fixpoint appended_by (all_prompts : list Prompt.t) (indices : list Z) (act : list Prompt.t)
  : list Prompt.t :=
  match indices with
  | [] => []
  | idx :: rest =>
    match all_prompts !! Z.to_nat idx with
    | Some p =>
      if bool_decide (p ∈ act) then appended_by all_prompts rest act
      else p :: appended_by all_prompts rest (act ++ [p])
    | None => appended_by all_prompts rest act
    end
  end.

(** The state after [save] of the model. *)
Definition saved (preset_name : string) (w : World) : World :=
  if writable w then set_markers (<[preset_name := active w]> (markers w)) w else w.

(** The state and the statistics [refresh_prompts] leaves behind when the
    extraction produced the store [st]. *)
Definition refreshed (st : list (string * Preset)) (w : World) : Controller.t World :=
  let w1 := set_active [] (set_store st (set_durable st w)) in
  match st with
  | [] => Controller.mk "" w1
  | (first, _) :: _ =>
    Controller.mk first (set_groups (default ∅ (saved_groups w !! first)) w1)
  end.

Definition statistics (st : list (string * Preset)) : Stats :=
  {| preset_count := length st;
     prompt_count := sum_list ((fun entry => length (prompts entry.2)) <$> st) |}.



(** The list without the entries at the given positions; [pos] is the
    position of the head of the list. *)
Fixpoint without_positions {A : Type} (positions : list Z) (pos : Z) (l : list A) : list A :=
  match l with
  | [] => []
  | x :: l' =>
    if bool_decide (pos ∈ positions) then without_positions positions (pos + 1) l'
    else x :: without_positions positions (pos + 1) l'
  end.

(** The entries at the given positions, in the order of the positions. *)
Definition entries_at {A : Type} (l : list A) (positions : list Z) : list A :=
  omap (fun i => l !! Z.to_nat i) positions.

(** The order [deactivate_multiple_prompts] sorts by is total and transitive. *)
#[global] Instance Zge_total : Total Z.ge.
Proof. intros x y. lia. Qed.

#[global] Instance Zge_trans : Transitive Z.ge.
Proof. intros x y z. lia. Qed.

(** ** A presets manager that fails

    The presets manager of the model, except that [get_prefix] raises, as a
    read of a prefix file that has become unreadable would. *)

Module Faulty.

Definition get_prefix (name : string) : Py World string :=
  raise (Exception "OSError").

Definition presets_manager : PresetsManager.Ops World := {|
  PresetsManager.load_presets := PresetStore.load;
  PresetsManager.extract_prompts := PresetStore.extract;
  PresetsManager.get_preset_list := PresetStore.list_preset_names;
  PresetsManager.get_prompts := PresetStore.get_prompts;
  PresetsManager.get_prefix := get_prefix;
  PresetsManager.create_preset := PresetStore.create_preset;
  PresetsManager.presets := PresetStore.presets
|}.

End Faulty.

(** ** Sample sessions *)

Module Sample.

Definition A : Prompt.t := Prompt.mk "A" "alpha" Prompt.extracted.
Definition B : Prompt.t := Prompt.mk "B" "beta" Prompt.extracted.
Definition C : Prompt.t := Prompt.mk "C" "gamma" Prompt.user_created.

(** An extracted prompt whose content is empty. *)
Definition E : Prompt.t := Prompt.mk "E" "" Prompt.extracted.

(** A world with the single preset "P". *)
Definition world (all_prompts : list Prompt.t) (prefix : string) (act : list Prompt.t)
    (gs : gmap string (list Z)) : World :=
  let store := [("P", {| prompts := all_prompts; prefix := prefix |})] in
  mkWorld store store None act ∅ gs (<["P" := gs]> ∅) true.

(** A session on preset "P". *)
Definition session (all_prompts : list Prompt.t) (prefix : string) (act : list Prompt.t)
    (gs : gmap string (list Z)) : Controller.t World :=
  Controller.mk "P" (world all_prompts prefix act gs).

(** A session on preset "P" whose preset files have since been removed: the
    next extraction succeeds and finds no preset. *)
Definition before_empty_refresh : Controller.t World :=
  Controller.mk "P"
    (mkWorld [("P", {| prompts := [A; B]; prefix := "" |})]
             [("P", {| prompts := [A; B]; prefix := "" |})]
             (Some []) [A] ∅ {["e" := []]} (<["P" := {["e" := []]}]> ∅) true).

End Sample.

(** The part of [deactivate_multiple_prompts] that runs once the valid
    indices are sorted: the removal loop and the outcome it leads to. *)
Definition remove_sorted {MS : Type} `{!PromptsManager.Ops MS} (sorted : list Z)
  : Py (Controller.t MS) (bool * message * list Prompt.t) :=
  deactivated_prompts <-
    for_each sorted
      (fun deactivated idx =>
         removed <- Controller.call (PromptsManager.deactivate_prompt idx) ;;
         match removed with
         | Some removed_prompt => ret (deactivated ++ [removed_prompt])
         | None => ret deactivated
         end) [] ;;
  if nonempty deactivated_prompts
  then ret (true, DeactivatedCount (length deactivated_prompts), deactivated_prompts)
  else ret (false, NothingDeactivated, []).

(** The number a message reports, for the four messages that report how many
    prompts were activated or closed. *)
Definition reported_count (msg : message) : option nat :=
  match msg with
  | ActivatedCount n | GroupActivated _ n | DeactivatedCount n | GroupDeactivated _ n => Some n
  | _ => None
  end.



(** ** Start-up: _ensure_directory_exists, _initialize and __init__

    The start-up code touches the file system through [Path.exists] and
    [Path.mkdir]; [is_OSError] tells whether the class of an exception
    derives from OSError, the only class [_ensure_directory_exists]
    catches. *)

Module FileSystem.

Class Ops (MS : Type) : Type := {
  (* directory.exists() *)
  path_exists : string -> MS -> MS * res bool;
  (* directory.mkdir(parents=True) *)
  mkdir : string -> MS -> MS * res unit;
  (* isinstance(e, OSError) *)
  is_OSError : exn -> bool
}.

End FileSystem.

(** [try: body except C as e: handler e] for an exception class C: the other
    exceptions pass through. *)
Definition try_except_of {S A : Type} (caught : exn -> bool) (body : Py S A)
    (handler : exn -> Py S A) : Py S A :=
  fun s =>
    match body s with
    | (s', Ret a) => (s', Ret a)
    | (s', Raise e) => if caught e then handler e s' else (s', Raise e)
    end.

Module Startup.

Section Methods.

Context {MS : Type}.
Context `{!FileSystem.Ops MS, !PresetsManager.Ops MS, !PromptsManager.Ops MS,
          !GroupsManager.Ops MS}.

Definition _ensure_directory_exists (directory : string) : Py (Controller.t MS) unit :=
  try_except_of FileSystem.is_OSError
    (present <- Controller.call (FileSystem.path_exists directory) ;;
     if negb present then Controller.call (FileSystem.mkdir directory)
     else ret tt)
    (fun _ => ret tt).

(** The handler of [_initialize] logs the exception and raises it again.
    The two folders are attributes of the controller that never change. *)
Definition _initialize (presets_folder output_folder : string) : Py (Controller.t MS) unit :=
  try_except
    (do _ensure_directory_exists presets_folder ;;
     do _ensure_directory_exists output_folder ;;
     do Controller.call PresetsManager.load_presets ;;
     preset_list <- Controller.call PresetsManager.get_preset_list ;;
     if nonempty preset_list then
       first <- py_getitem preset_list 0 ;;
       do Controller.set_current_preset_name first ;;
       cur <- read Controller.current_preset_name ;;
       do Controller.call (GroupsManager.load_prompt_groups cur) ;;
       current_prompts <- Controller.get_current_prompts ;;
       cur <- read Controller.current_preset_name ;;
       do Controller.call (PromptsManager.load_activation_state cur current_prompts) ;;
       ret tt
     else ret tt)
    (fun e => raise e).

(** [__init__]: the current preset name starts empty, the managers are
    built (their state is [ms]) and [_initialize] runs. *)
Definition __init__ (presets_folder output_folder : string) (ms : MS)
  : Controller.t MS * res unit :=
  _initialize presets_folder output_folder (Controller.mk "" ms).

End Methods.

End Startup.

(** The order [deactivate_multiple_prompts] sorts by is antisymmetric. *)
#[global] Instance Zge_antisymm : AntiSymm (=) Z.ge.
Proof. intros x y. lia. Qed.

(** ** Sample environments for the start-up code and for failures *)

Module Environment.

(** The folders are there, as after main.py has created them. *)
Definition present : FileSystem.Ops World := {|
  FileSystem.path_exists := fun _ => ret true;
  FileSystem.mkdir := fun _ => ret tt;
  FileSystem.is_OSError := fun e =>
    match e with Exception kind => bool_decide (kind = "PermissionError") end
|}.

(** The folders are missing and cannot be created. *)
Definition read_only : FileSystem.Ops World := {|
  FileSystem.path_exists := fun _ => ret false;
  FileSystem.mkdir := fun _ => raise (Exception "PermissionError");
  FileSystem.is_OSError := fun e =>
    match e with Exception kind => bool_decide (kind = "PermissionError") end
|}.

(** A groups manager whose [load_prompt_groups] raises, as on a group file
    that is not valid JSON; everything else is the model. *)
Definition broken_groups : GroupsManager.Ops World := {|
  GroupsManager.prompt_groups := groups;
  GroupsManager.set_prompt_groups := set_groups;
  GroupsManager.load_prompt_groups := fun _ => raise (Exception "JSONDecodeError");
  GroupsManager.get_all_groups := GroupRegistry.get_all_groups;
  GroupsManager.get_prompt_group := GroupRegistry.get_group;
  GroupsManager.create_prompt_group := GroupRegistry.create;
  GroupsManager.update_prompt_group := GroupRegistry.update_group;
  GroupsManager.delete_prompt_group := GroupRegistry.delete_group
|}.

(** A presets manager whose [load_presets] raises; everything else is the
    model. *)
Definition broken_presets : PresetsManager.Ops World := {|
  PresetsManager.load_presets := raise (Exception "JSONDecodeError");
  PresetsManager.extract_prompts := PresetStore.extract;
  PresetsManager.get_preset_list := PresetStore.list_preset_names;
  PresetsManager.get_prompts := PresetStore.get_prompts;
  PresetsManager.get_prefix := PresetStore.get_prefix;
  PresetsManager.create_preset := PresetStore.create_preset;
  PresetsManager.presets := PresetStore.presets
|}.

End Environment.

(** * Properties *)

(** ** Computations: basic equations *)

Lemma bind_Ret {S A B : Type} (m : Py S A) (k : A -> Py S B) (s s' : S) (a : A) :
  m s = (s', Ret a) -> bind m k s = k a s'.
Proof. intros Hm. unfold bind. now rewrite Hm. Qed.

Lemma bind_Raise {S A B : Type} (m : Py S A) (k : A -> Py S B) (s s' : S) (e : exn) :
  m s = (s', Raise e) -> bind m k s = (s', Raise e).
Proof. intros Hm. unfold bind. now rewrite Hm. Qed.

Lemma try_except_Ret {S A : Type} (body : Py S A) (handler : exn -> Py S A) (s s' : S) (a : A) :
  body s = (s', Ret a) -> try_except body handler s = (s', Ret a).
Proof. intros Hb. unfold try_except. now rewrite Hb. Qed.

Lemma try_except_Raise {S A : Type} (body : Py S A) (handler : exn -> Py S A)
    (s s' : S) (e : exn) :
  body s = (s', Raise e) -> try_except body handler s = handler e s'.
Proof. intros Hb. unfold try_except. now rewrite Hb. Qed.




Lemma truthy_true (s : string) : truthy s = true <-> s <> "".
Proof.
  unfold truthy. rewrite negb_true_iff, bool_decide_eq_false. tauto.
Qed.

Lemma truthy_false (s : string) : truthy s = false <-> s = "".
Proof.
  unfold truthy. rewrite negb_false_iff, bool_decide_eq_true. tauto.
Qed.

Lemma nonempty_true {A : Type} (l : list A) : nonempty l = true <-> l <> [].
Proof. destruct l; simpl; split; congruence. Qed.

Lemma nonempty_false {A : Type} (l : list A) : nonempty l = false <-> l = [].
Proof. destruct l; simpl; split; congruence. Qed.

(** Under the bounds check that guards it, [l[i]] is the list lookup. *)
Lemma py_getitem_in_range {S A : Type} (l : list A) (i : Z) (s : S) :
  0 <= i < Z.of_nat (length l) ->
  exists x, l !! Z.to_nat i = Some x /\ py_getitem l i s = (s, Ret x).
Proof.
  intros Hi. unfold py_getitem.
  rewrite (bool_decide_eq_false_2 (i < 0)) by lia.
  rewrite (bool_decide_eq_true_2 (0 <= i)) by lia.
  destruct (l !! Z.to_nat i) as [x |] eqn:Hx.
  - now exists x.
  - apply lookup_ge_None in Hx. lia.
Qed.

(** ** Joining segments with a blank line *)

Lemma string_append_assoc (a b c : string) : (a +:+ b) +:+ c = a +:+ b +:+ c.
Proof.
  induction a as [| ch a IH]; [reflexivity |].
  change (String ch ((a +:+ b) +:+ c) = String ch (a +:+ b +:+ c)).
  now rewrite IH.
Qed.

Lemma concat_snoc (sep x : string) (l : list string) :
  l <> [] -> String.concat sep (l ++ [x]) = String.concat sep l +:+ sep +:+ x.
Proof.
  induction l as [| y l IH]; [congruence |]. intros _.
  destruct l as [| z l].
  - reflexivity.
  - change (String.concat sep ((y :: z :: l) ++ [x]))
      with (y +:+ sep +:+ String.concat sep ((z :: l) ++ [x])).
    rewrite IH by congruence.
    change (String.concat sep (y :: z :: l)) with (y +:+ sep +:+ String.concat sep (z :: l)).
    now rewrite !string_append_assoc.
Qed.

(** The loop that collects the contents is a filter. *)
Lemma collect_contents (init : list string) (active : list Prompt.t) :
  foldl (fun parts prompt =>
           let content := Prompt.content prompt in
           if truthy content then parts ++ [content] else parts) init active
  = init ++ filter (fun c => c <> "") (Prompt.content <$> active).
Proof.
  revert init. induction active as [| p active IH]; intros init; simpl.
  - now rewrite app_nil_r.
  - rewrite IH. destruct (truthy (Prompt.content p)) eqn:Hc.
    + apply truthy_true in Hc. rewrite filter_cons_True by assumption.
      now rewrite <- app_assoc.
    + apply truthy_false in Hc. rewrite filter_cons_False; [reflexivity |].
      intros Hne. now apply Hne.
Qed.

(** ** The controller over any managers *)

Section General.

Context {MS : Type}.
Context `{!PresetsManager.Ops MS, !PromptsManager.Ops MS, !GroupsManager.Ops MS}.

Lemma call_run {A : Type} (method : MS -> MS * res A) (self : Controller.t MS)
    (ms : MS) (r : res A) :
  method (Controller.managers self) = (ms, r) ->
  Controller.call method self = (Controller.mk (Controller.current_preset_name self) ms, r).
Proof. intros Hm. unfold Controller.call. now rewrite Hm. Qed.

Lemma call_pure {A : Type} (method : MS -> MS * res A) (self : Controller.t MS) (r : res A) :
  method (Controller.managers self) = (Controller.managers self, r) ->
  Controller.call method self = (self, r).
Proof. intros Hm. rewrite (call_run _ _ _ _ Hm). now destruct self. Qed.

Lemma switch_preset_out_of_range (index : Z) (presets : list string) (self : Controller.t MS) :
  PresetsManager.get_preset_list (Controller.managers self)
    = (Controller.managers self, Ret presets) ->
  ¬ (0 <= index < Z.of_nat (length presets)) ->
  Controller.switch_preset index self
  = (self, Ret (false, if nonempty presets then InvalidPresetIndex index
                       else NoPresetsAvailable)).
Proof.
  intros Hlist Hout.
  apply try_except_Ret.
  unfold Controller.get_preset_list.
  rewrite (bind_Ret _ _ _ _ _ (call_pure _ _ _ Hlist)).
  destruct (nonempty presets); cbn [negb]; [| reflexivity].
  now rewrite (bool_decide_eq_false_2 _ Hout).
Qed.

Lemma deactivate_prompt_group_empty (group_name : string) (self : Controller.t MS) :
  Controller.current_preset_name self <> "" ->
  group_name <> "" ->
  GroupsManager.get_prompt_group group_name (Controller.managers self)
    = (Controller.managers self, Ret (Some [])) ->
  Controller.deactivate_prompt_group group_name self
  = (self, Ret (true, GroupEmptyNothingToClose group_name, [])).
Proof.
  intros Hcur Hname Hgroup.
  apply try_except_Ret.
  unfold bind at 1. unfold read at 1.
  apply truthy_true in Hcur. apply truthy_true in Hname.
  rewrite Hcur, Hname. cbn [negb].
  now rewrite (bind_Ret _ _ _ _ _ (call_pure _ _ _ Hgroup)).
Qed.

Lemma activate_prompt_group_empty (group_name : string) (all_prompts : list Prompt.t)
    (self : Controller.t MS) :
  Controller.get_current_prompts self = (self, Ret all_prompts) ->
  GroupsManager.get_prompt_group group_name (Controller.managers self)
    = (Controller.managers self, Ret (Some [])) ->
  exists msg, Controller.activate_prompt_group group_name self = (self, Ret (false, msg, [])).
Proof.
  intros Hprompts Hgroup.
  unfold Controller.activate_prompt_group.
  destruct (nonempty all_prompts) eqn:Hall.
  - destruct (truthy group_name) eqn:Hname.
    + exists (GroupEmpty group_name). apply try_except_Ret.
      rewrite (bind_Ret _ _ _ _ _ Hprompts). rewrite Hall. cbn [negb].
      now rewrite (bind_Ret _ _ _ _ _ (call_pure _ _ _ Hgroup)).
    + exists GroupNameEmpty. apply try_except_Ret.
      rewrite (bind_Ret _ _ _ _ _ Hprompts). now rewrite Hall.
  - exists NoPromptsInPreset. apply try_except_Ret.
    rewrite (bind_Ret _ _ _ _ _ Hprompts). now rewrite Hall.
Qed.

Lemma activate_prompt_group_run (group_name : string) (all_prompts : list Prompt.t)
    (indices : list Z) (self : Controller.t MS) :
  all_prompts <> [] -> group_name <> "" -> indices <> [] ->
  Controller.get_current_prompts self = (self, Ret all_prompts) ->
  GroupsManager.get_prompt_group group_name (Controller.managers self)
    = (Controller.managers self, Ret (Some indices)) ->
  Controller.activate_prompt_group group_name self
  = let '(ms, r) := PromptsManager.activate_prompts all_prompts indices (Controller.managers self) in
    (Controller.mk (Controller.current_preset_name self) ms,
     Ret (group_activation_outcome group_name r)).
Proof.
  intros Hall Hname Hidx Hprompts Hgroup.
  apply nonempty_true in Hall. apply truthy_true in Hname. apply nonempty_true in Hidx.
  unfold Controller.activate_prompt_group.
  destruct (PromptsManager.activate_prompts all_prompts indices (Controller.managers self))
    as [ms [newly | e]] eqn:Hact.
  - apply try_except_Ret.
    rewrite (bind_Ret _ _ _ _ _ Hprompts). rewrite Hall, Hname. cbn [negb].
    rewrite (bind_Ret _ _ _ _ _ (call_pure _ _ _ Hgroup)). rewrite Hidx. cbn [negb].
    rewrite (bind_Ret _ _ _ _ _ (call_run _ _ _ _ Hact)).
    cbn [group_activation_outcome]. now destruct (nonempty newly).
  - erewrite try_except_Raise; [reflexivity |].
    rewrite (bind_Ret _ _ _ _ _ Hprompts). rewrite Hall, Hname. cbn [negb].
    rewrite (bind_Ret _ _ _ _ _ (call_pure _ _ _ Hgroup)). rewrite Hidx. cbn [negb].
    now rewrite (bind_Raise _ _ _ _ _ (call_run _ _ _ _ Hact)).
Qed.



Lemma process_llm_request_run (system_text user_text prefix : string)
    (self self' : Controller.t MS) :
  Controller.get_current_prefix self = (self', Ret prefix) ->
  Controller.process_llm_request system_text user_text self
  = (self', Ret (join_block
                   (prepend_block prefix (PromptsManager.active_prompts (Controller.managers self)))
                   system_text,
                 user_text)).
Proof.
  intros Hprefix.
  unfold Controller.process_llm_request, Controller.get_active_prompts, Controller.attr.
  unfold bind at 1. unfold read at 1.
  rewrite (bind_Ret _ _ _ _ _ Hprefix). unfold ret. cbv zeta.
  set (active := PromptsManager.active_prompts (Controller.managers self)).
  assert (Hparts :
    (if nonempty active
     then foldl (fun parts prompt =>
                   if truthy (Prompt.content prompt)
                   then parts ++ [Prompt.content prompt] else parts)
                (if truthy prefix then [prefix] else []) active
     else if truthy prefix then [prefix] else [])
    = prepend_block prefix active).
  { unfold prepend_block. destruct active as [| p active'].
    - simpl. now rewrite app_nil_r.
    - cbn [nonempty]. apply (collect_contents _ (p :: active')). }
  rewrite Hparts. unfold join_block.
  destruct (prepend_block prefix active); reflexivity.
Qed.

End General.

(** ** The controller over the managers of the specification *)

Lemma set_active_same (w : World) : set_active (active w) w = w.
Proof. now destruct w. Qed.

Lemma set_active_twice (a b : list Prompt.t) (w : World) :
  set_active a (set_active b w) = set_active a w.
Proof. reflexivity. Qed.

Lemma activate_loop (all_prompts : list Prompt.t) (indices : list Z) :
  Forall (in_range all_prompts) indices ->
  forall (acc : list Prompt.t) (w : World),
    for_each indices (ActivationTracker.activate_one all_prompts) acc w
    = (set_active (active w ++ appended_by all_prompts indices (active w)) w,
       Ret (acc ++ appended_by all_prompts indices (active w))).
Proof.
  induction 1 as [| idx rest Hidx _ IH]; intros acc w.
  - simpl. unfold ret. now rewrite !app_nil_r, set_active_same.
  - destruct (py_getitem_in_range (S := World) all_prompts idx w Hidx) as (p & Hp & Hget).
    cbn [for_each appended_by]. rewrite Hp.
    unfold ActivationTracker.activate_one at 1.
    rewrite (bool_decide_eq_true_2 _ Hidx).
    unfold bind at 1. unfold bind at 1. rewrite Hget.
    unfold bind at 1. unfold read at 1.
    destruct (bool_decide (p ∈ active w)) eqn:Hin.
    + unfold ret at 1. apply IH.
    + unfold bind at 1, update at 1, ret at 1.
      rewrite IH. cbn [active set_active].
      now rewrite <- !app_assoc.
Qed.

Lemma appended_by_covers (all_prompts : list Prompt.t) (indices : list Z) :
  forall (act : list Prompt.t) (idx : Z) (p : Prompt.t),
    idx ∈ indices -> all_prompts !! Z.to_nat idx = Some p ->
    p ∈ act ++ appended_by all_prompts indices act.
Proof.
  induction indices as [| i rest IH]; intros act idx p Hidx Hp.
  - now apply elem_of_nil in Hidx.
  - apply elem_of_cons in Hidx as [-> | Hrest]; cbn [appended_by].
    + rewrite Hp. destruct (bool_decide (p ∈ act)) eqn:Hin.
      * apply bool_decide_eq_true in Hin. apply elem_of_app. now left.
      * apply elem_of_app. right. apply elem_of_cons. now left.
    + destruct (all_prompts !! Z.to_nat i) as [q |] eqn:Hq; [| now apply IH with idx].
      destruct (bool_decide (q ∈ act)); [now apply IH with idx |].
      specialize (IH (act ++ [q]) idx p Hrest Hp).
      rewrite <- app_assoc in IH. exact IH.
Qed.

Lemma appended_by_present (all_prompts : list Prompt.t) (indices : list Z) (act : list Prompt.t) :
  (forall idx p, idx ∈ indices -> all_prompts !! Z.to_nat idx = Some p -> p ∈ act) ->
  appended_by all_prompts indices act = [].
Proof.
  induction indices as [| i rest IH]; intros Hall; [reflexivity |].
  cbn [appended_by].
  assert (Hrest : appended_by all_prompts rest act = []).
  { apply IH. intros idx p Hidx. apply Hall. now apply elem_of_cons; right. }
  destruct (all_prompts !! Z.to_nat i) as [q |] eqn:Hq; [| exact Hrest].
  rewrite bool_decide_eq_true_2; [exact Hrest |].
  apply (Hall i q); [apply elem_of_cons; now left | exact Hq].
Qed.

Lemma get_current_prompts_model (self : Controller.t World) :
  Controller.get_current_prompts self = (self, Ret (current_prompts self)).
Proof.
  destruct self as [cur w]. unfold Controller.get_current_prompts, current_prompts.
  unfold bind, read. cbn [Controller.current_preset_name Controller.managers].
  destruct (truthy cur); reflexivity.
Qed.

Lemma save_model (preset_name : string) (all_prompts : list Prompt.t) (w : World) :
  ActivationTracker.save preset_name all_prompts w = (saved preset_name w, Ret (writable w)).
Proof.
  unfold ActivationTracker.save, saved, bind, read, update, ret.
  destruct (writable w); reflexivity.
Qed.

Lemma filter_invalid_nil {A : Type} (l : list A) (indices : list Z) :
  l <> [] ->
  Forall (in_range l) indices ->
  filter (fun idx => ¬ (0 <= idx <= Z.of_nat (length l) - 1)) indices = [].
Proof.
  intros _. induction 1 as [| idx rest Hidx _ IH]; [reflexivity |].
  rewrite filter_cons_False; [exact IH |].
  unfold in_range in Hidx. intros Hn. apply Hn. lia.
Qed.

Lemma activate_multiple_prompts_model (indices : list Z) (self : Controller.t World) :
  indices <> [] ->
  Forall (in_range (current_prompts self)) indices ->
  let cur := Controller.current_preset_name self in
  let w := Controller.managers self in
  let newly := appended_by (current_prompts self) indices (active w) in
  Controller.activate_multiple_prompts indices self
  = if nonempty newly
    then (Controller.mk cur (saved cur (set_active (active w ++ newly) w)),
          Ret (true, ActivatedCount (length newly), newly))
    else (self, Ret (true, AllSelectedAlreadyActive, [])).
Proof.
  intros Hne Hvalid cur w newly.
  assert (Hall : current_prompts self <> []).
  { destruct indices as [| idx rest]; [congruence |].
    apply Forall_cons in Hvalid as [Hidx _]. unfold in_range in Hidx.
    intros Hnil. rewrite Hnil in Hidx. simpl in Hidx. lia. }
  unfold Controller.activate_multiple_prompts.
  apply nonempty_true in Hne. apply nonempty_true in Hall.
  rewrite Hne. cbn [negb].
  set (body := bind _ _).
  assert (Hbody : body self
    = if nonempty newly
      then (Controller.mk cur (saved cur (set_active (active w ++ newly) w)),
            Ret (true, ActivatedCount (length newly), newly))
      else (self, Ret (true, AllSelectedAlreadyActive, []))).
  { subst body. rewrite (bind_Ret _ _ _ _ _ (get_current_prompts_model self)).
    rewrite Hall. cbn [negb].
    rewrite filter_invalid_nil by (try apply nonempty_true; assumption).
    cbn [nonempty].
    unfold bind at 1. unfold Controller.call at 1.
    change (PromptsManager.activate_prompts (current_prompts self) indices)
      with (for_each indices (ActivationTracker.activate_one (current_prompts self)) []).
    rewrite (activate_loop _ _ Hvalid). cbn [app]. fold w. fold newly.
    destruct (nonempty newly) eqn:Hnew.
    - unfold bind at 1. unfold read at 1.
      cbn [Controller.current_preset_name].
      unfold bind at 1. unfold Controller.call at 1.
      cbn [Controller.managers Controller.current_preset_name].
      change (PromptsManager.save_activation_state (Controller.current_preset_name self)
                (current_prompts self))
        with (ActivationTracker.save (Controller.current_preset_name self)
                (current_prompts self)).
      rewrite save_model. reflexivity.
    - apply nonempty_false in Hnew. subst newly. rewrite Hnew, app_nil_r.
      subst w. rewrite set_active_same. destruct self; reflexivity. }
  destruct (nonempty newly); apply try_except_Ret; exact Hbody.
Qed.

Lemma presets_statistics (st : list (string * Preset)) (w : World) :
  sum_list (length <$> (PresetStore.presets (set_store st w)).*2) = prompt_count (statistics st).
Proof.
  unfold PresetStore.presets, statistics. cbn [store set_store prompt_count].
  induction st as [| [n p] st IH]; [reflexivity |].
  cbn [fmap list_fmap sum_list snd fst]. cbn [fmap] in IH. now rewrite IH.
Qed.

Lemma refresh_prompts_model (self : Controller.t World) :
  Controller.refresh_prompts self
  = match extraction (Controller.managers self) with
    | Some st =>
      (refreshed st (Controller.managers self),
       Ret (true,
            (if nonempty st
             then Reloaded (preset_count (statistics st)) (prompt_count (statistics st))
             else NoPresetsFound),
            Some (statistics st)))
    | None => (self, Ret (false, ExtractionFailed, None))
    end.
Proof.
  destruct self as [cur w]. cbn [Controller.managers].
  destruct w as [st0 du ex act mk gs sg wr]. cbn [extraction].
  destruct ex as [st |]; [| reflexivity].
  destruct st as [| [first p] st].
  - reflexivity.
  - apply try_except_Ret.
    unfold bind at 1. cbn.
    unfold bind at 1. unfold bind at 1.
    match goal with
    | |- context [py_getitem ?l ?i ?s] =>
      destruct (py_getitem_in_range l i s) as (x & Hx & Hget); [cbn; lia |]
    end.
    cbn in Hx. injection Hx as <-. rewrite Hget. cbn.
    rewrite bool_decide_eq_true_2 by lia.
    unfold ret. rewrite !length_fmap.
    pose proof (presets_statistics ((first, p) :: st)
                  (mkWorld st0 du None act mk gs sg wr)) as Hsum.
    cbn in Hsum. cbn. rewrite Hsum. reflexivity.
Qed.





Lemma without_positions_below {A : Type} (positions : list Z) (l : list A) :
  forall pos, Forall (fun i => i < pos) positions -> without_positions positions pos l = l.
Proof.
  induction l as [| x l IH]; intros pos Hbelow; [reflexivity |].
  cbn [without_positions]. rewrite bool_decide_eq_false_2.
  - rewrite IH; [reflexivity |]. eapply Forall_impl; [exact Hbelow |]. cbn. lia.
  - intros Hin. rewrite Forall_forall in Hbelow. specialize (Hbelow pos Hin). lia.
Qed.

Lemma without_positions_ext {A : Type} (p1 p2 : list Z) (l : list A) :
  (forall i, i ∈ p1 <-> i ∈ p2) ->
  forall pos, without_positions p1 pos l = without_positions p2 pos l.
Proof.
  intros Hsame. induction l as [| x l IH]; intros pos; [reflexivity |].
  cbn [without_positions]. rewrite (bool_decide_ext _ _ (Hsame pos)).
  now rewrite IH.
Qed.

(** Deleting the highest position first leaves the lower positions where
    they were. *)
Lemma without_positions_highest {A : Type} (i : Z) (rest : list Z) (l : list A) :
  Forall (fun j => j < i) rest ->
  forall pos,
    pos <= i < pos + Z.of_nat (length l) ->
    without_positions (i :: rest) pos l
    = without_positions rest pos (delete (Z.to_nat (i - pos)) l).
Proof.
  intros Hrest. induction l as [| x l IH]; intros pos Hi; [cbn in Hi; lia |].
  cbn [without_positions].
  destruct (decide (pos = i)) as [-> | Hne].
  - rewrite bool_decide_eq_true_2 by (apply elem_of_cons; now left).
    replace (Z.to_nat (i - i)) with 0%nat by lia. cbn [delete list_delete].
    rewrite without_positions_below.
    + symmetry. now apply without_positions_below.
    + constructor; [lia |]. eapply Forall_impl; [exact Hrest |]. cbn. lia.
  - replace (Z.to_nat (i - pos)) with (S (Z.to_nat (i - (pos + 1)))) by lia.
    cbn [delete list_delete without_positions].
    assert (Hmem : pos ∈ i :: rest <-> pos ∈ rest).
    { rewrite elem_of_cons. intuition congruence. }
    rewrite (bool_decide_ext _ _ Hmem).
    rewrite IH by (cbn [length] in Hi; lia).
    reflexivity.
Qed.

Lemma entries_at_delete {A : Type} (l : list A) (i : Z) (rest : list Z) :
  Forall (fun j => 0 <= j < i) rest ->
  entries_at (delete (Z.to_nat i) l) rest = entries_at l rest.
Proof.
  induction 1 as [| j rest Hj _ IH]; [reflexivity |].
  unfold entries_at in *. cbn [omap list_omap].
  rewrite list_lookup_delete_lt by lia. now rewrite IH.
Qed.

Lemma deactivate_model (idx : Z) (w : World) :
  in_range (active w) idx ->
  exists p, active w !! Z.to_nat idx = Some p /\
    ActivationTracker.deactivate idx w
    = (set_active (delete (Z.to_nat idx) (active w)) w, Ret (Some p)).
Proof.
  intros Hin. unfold ActivationTracker.deactivate.
  unfold bind at 1. unfold read at 1. rewrite (bool_decide_eq_true_2 _ Hin).
  unfold bind, update, ret.
  destruct (active w !! Z.to_nat idx) as [p |] eqn:Hp.
  - now exists p.
  - apply lookup_ge_None in Hp. unfold in_range in Hin. lia.
Qed.

(** The removal loop of [deactivate_multiple_prompts] over strictly
    descending positions. *)
Lemma deactivate_loop (cur : string) (positions : list Z) :
  StronglySorted Z.gt positions ->
  forall (acc : list Prompt.t) (w : World),
    Forall (in_range (active w)) positions ->
    for_each positions
      (fun deactivated idx =>
         removed <- Controller.call (PromptsManager.deactivate_prompt idx) ;;
         match removed with
         | Some removed_prompt => ret (deactivated ++ [removed_prompt])
         | None => ret deactivated
         end) acc (Controller.mk cur w)
    = (Controller.mk cur (set_active (without_positions positions 0 (active w)) w),
       Ret (acc ++ entries_at (active w) positions)).
Proof.
  induction 1 as [| i rest _ IH Hlower]; intros acc w Hrange.
  - cbn. unfold ret. rewrite app_nil_r.
    rewrite without_positions_below by constructor. now rewrite set_active_same.
  - apply Forall_cons in Hrange as [Hi Hrest].
    destruct (deactivate_model i w Hi) as (p & Hp & Hrun).
    assert (Hbelow : Forall (fun j => 0 <= j < i) rest).
    { rewrite Forall_forall in *. intros j Hj.
      specialize (Hlower j Hj). specialize (Hrest j Hj). unfold in_range in Hrest. lia. }
    cbn [for_each]. unfold bind at 1. unfold bind at 1. unfold Controller.call at 1.
    cbn [Controller.managers Controller.current_preset_name].
    change (PromptsManager.deactivate_prompt i w) with (ActivationTracker.deactivate i w).
    rewrite Hrun. unfold ret at 1.
    rewrite IH.
    + cbn [active set_active].
      rewrite without_positions_highest.
      * replace (Z.to_nat (i - 0)) with (Z.to_nat i) by lia.
        unfold entries_at at 2. cbn [omap list_omap]. rewrite Hp.
        fold (entries_at (active w) rest).
        rewrite entries_at_delete by assumption.
        now rewrite <- app_assoc.
      * eapply Forall_impl; [exact Hbelow |]. cbn. lia.
      * unfold in_range in Hi. lia.
    + cbn [active set_active]. rewrite Forall_forall in *. intros j Hj.
      specialize (Hbelow j Hj). unfold in_range in *.
      rewrite (length_delete _ _ (mk_is_Some _ _ Hp)). lia.
Qed.

Lemma strictly_descending (l : list Z) :
  StronglySorted Z.ge l -> NoDup l -> StronglySorted Z.gt l.
Proof.
  induction 1 as [| x l _ IH Hge]; intros Hnd; [constructor |].
  apply NoDup_cons in Hnd as [Hx Hnd].
  constructor; [now apply IH |].
  rewrite Forall_forall in *. intros y Hy. specialize (Hge y Hy).
  assert (x <> y) by (intros ->; contradiction). lia.
Qed.

Lemma entries_at_nonempty {A : Type} (l : list A) (positions : list Z) :
  positions <> [] -> Forall (in_range l) positions -> entries_at l positions <> [].
Proof.
  intros Hne Hrange. destruct positions as [| i rest]; [congruence |].
  apply Forall_cons in Hrange as [Hi _]. unfold entries_at. cbn [omap list_omap].
  destruct (l !! Z.to_nat i) eqn:Hl; [discriminate |].
  apply lookup_ge_None in Hl. unfold in_range in Hi. lia.
Qed.

(** For pairwise distinct indices, [deactivate_multiple_prompts] removes
    exactly the entries at the valid positions and returns them from the
    highest position to the lowest. *)
Lemma deactivate_multiple_prompts_distinct (indices : list Z) (self : Controller.t World) :
  let w := Controller.managers self in
  let valid := filter (in_range (active w)) indices in
  let removed := entries_at (active w) (merge_sort Z.ge valid) in
  NoDup indices ->
  valid <> [] ->
  Controller.deactivate_multiple_prompts indices self
  = (Controller.mk (Controller.current_preset_name self)
       (set_active (without_positions valid 0 (active w)) w),
     Ret (true, DeactivatedCount (length removed), removed)).
Proof.
  intros w valid removed Hnd Hvalid.
  destruct self as [cur w0]. cbn [Controller.managers] in w. subst w.
  assert (Hfilter : filter (fun idx => 0 <= idx <= Z.of_nat (length (active w0)) - 1) indices
                    = valid).
  { subst valid. apply list_filter_iff. intros idx. unfold in_range. lia. }
  assert (Hindices : indices <> []).
  { intros ->. now apply Hvalid. }
  assert (Hactive : active w0 <> []).
  { destruct valid as [| i rest] eqn:Hv; [congruence |].
    assert (Hi : i ∈ filter (in_range (active w0)) indices).
    { fold valid. rewrite Hv. apply elem_of_cons. now left. }
    apply list_elem_of_filter in Hi as [Hi _]. unfold in_range in Hi.
    intros Hnil. rewrite Hnil in Hi. cbn in Hi. lia. }
  assert (Hperm : merge_sort Z.ge valid ≡ₚ valid) by apply merge_sort_Permutation.
  assert (Hsorted : StronglySorted Z.gt (merge_sort Z.ge valid)).
  { apply strictly_descending.
    - apply StronglySorted_merge_sort; apply _.
    - rewrite Hperm. subst valid. now apply NoDup_filter. }
  assert (Hrange : Forall (in_range (active w0)) (merge_sort Z.ge valid)).
  { rewrite Hperm. subst valid. apply Forall_forall. intros i Hi.
    now apply list_elem_of_filter in Hi as [Hi _]. }
  assert (Hremoved : nonempty removed = true).
  { apply nonempty_true. apply entries_at_nonempty; [| exact Hrange].
    intros Hnil. rewrite Hnil in Hperm. apply Permutation_nil_l in Hperm. congruence. }
  apply nonempty_true in Hindices. apply nonempty_true in Hactive.
  apply nonempty_true in Hvalid.
  apply try_except_Ret.
  rewrite Hindices. cbn [negb].
  unfold bind at 1. unfold Controller.attr at 1. unfold read at 1.
  cbn [Controller.managers].
  change (PromptsManager.active_prompts w0) with (active w0).
  rewrite Hactive. cbn [negb]. rewrite Hfilter, Hvalid. cbn [negb].
  rewrite andb_false_r.
  unfold bind at 1. rewrite (deactivate_loop cur _ Hsorted [] w0 Hrange).
  cbn [app]. fold removed. rewrite Hremoved.
  unfold ret. do 3 f_equal.
  apply without_positions_ext. intros i. now rewrite Hperm.
Qed.

(** Deactivating the active-list indices [2, 0] in one call removes the
    entries that were at positions 2 and 0. *)
Lemma deactivate_two_and_zero (cur : string) (w : World) (a0 a1 a2 : Prompt.t)
    (others : list Prompt.t) :
  active w = a0 :: a1 :: a2 :: others ->
  Controller.deactivate_multiple_prompts [2; 0] (Controller.mk cur w)
  = (Controller.mk cur (set_active (a1 :: others) w),
     Ret (true, DeactivatedCount 2, [a2; a0])).
Proof.
  intros Hact.
  assert (Hvalid : filter (in_range (active w)) [2; 0] = [2; 0]).
  { rewrite Hact. rewrite !filter_cons_True; [reflexivity | |]; unfold in_range; cbn; lia. }
  rewrite deactivate_multiple_prompts_distinct; cbn [Controller.managers].
  - rewrite Hvalid, Hact. cbn [Controller.current_preset_name].
    change (merge_sort Z.ge [2; 0]) with [2; 0].
    do 2 f_equal. cbn [without_positions].
    rewrite without_positions_below; [reflexivity |].
    repeat constructor.
  - repeat constructor; rewrite ?elem_of_cons, ?elem_of_nil; intuition lia.
  - now rewrite Hvalid.
Qed.


(** * The claims *)

(** ** C1 and C9: process_llm_request *)

Lemma join_block_filter (prefix system_text : string) (active : list Prompt.t) :
  join_block (prepend_block prefix active) system_text
  = String.concat Controller.blank_line
      (filter (fun s => s <> "") (prefix :: (Prompt.content <$> active) ++ [system_text])).
Proof.
  assert (Hsplit :
    filter (fun s => s <> "") (prefix :: (Prompt.content <$> active) ++ [system_text])
    = prepend_block prefix active ++ (if truthy system_text then [system_text] else [])).
  { unfold prepend_block.
    change (prefix :: (Prompt.content <$> active) ++ [system_text])
      with ([prefix] ++ (Prompt.content <$> active) ++ [system_text]).
    rewrite !filter_app, <- app_assoc. f_equal; [| f_equal].
    - destruct (truthy prefix) eqn:Hp.
      + apply truthy_true in Hp. rewrite filter_cons_True by assumption. reflexivity.
      + apply truthy_false in Hp. rewrite filter_cons_False; [reflexivity | tauto].
    - destruct (truthy system_text) eqn:Hs.
      + apply truthy_true in Hs. rewrite filter_cons_True by assumption. reflexivity.
      + apply truthy_false in Hs. rewrite filter_cons_False; [reflexivity | tauto]. }
  rewrite Hsplit. unfold join_block.
  destruct (prepend_block prefix active) as [| seg block] eqn:Hblock.
  - cbn [app]. destruct (truthy system_text) eqn:Hs; [reflexivity |].
    apply truthy_false in Hs. now subst.
  - destruct (truthy system_text).
    + now rewrite concat_snoc.
    + now rewrite app_nil_r.
Qed.

Lemma get_current_prefix_model (self : Controller.t World) :
  Controller.get_current_prefix self
  = (self, Ret (if truthy (Controller.current_preset_name self)
                then from_option prefix "" (find_preset (Controller.current_preset_name self)
                                                        (store (Controller.managers self)))
                else "")).
Proof.
  destruct self as [cur w]. unfold Controller.get_current_prefix.
  unfold bind, read. cbn [Controller.current_preset_name Controller.managers].
  destruct (truthy cur); reflexivity.
Qed.

Lemma sample_current_prompts (all_prompts : list Prompt.t) (prefix : string)
    (act : list Prompt.t) (gs : gmap string (list Z)) :
  current_prompts (Sample.session all_prompts prefix act gs) = all_prompts.
Proof. reflexivity. Qed.

(** C1, as stated, does not hold: with the prefix "SYS" and an ActiveSet
    holding one prompt whose content is empty, joining the prefix, each
    active content and the system text gives "SYS", an empty segment and
    "orig", while [process_llm_request] returns "SYS" and "orig" only. *)
Lemma process_llm_request_empty_content :
  let self := Sample.session [Sample.E] "SYS" [Sample.E] ∅ in
  Controller.get_current_prefix self = (self, Ret "SYS")
  /\ Controller.process_llm_request "orig" "u" self
     = (self, Ret ("SYS" +:+ Controller.blank_line +:+ "orig", "u"))
  /\ join_block (block_as_stated "SYS" [Sample.E]) "orig"
     = "SYS" +:+ Controller.blank_line +:+ "" +:+ Controller.blank_line +:+ "orig"
  /\ Controller.process_llm_request "orig" "u" self
     <> (self, Ret (join_block (block_as_stated "SYS" [Sample.E]) "orig", "u")).
Proof.
  cbv zeta. repeat split; try reflexivity.
  vm_compute. intros Heq. discriminate Heq.
Qed.

(** C1 (amended): [process_llm_request] returns the user text unchanged and
    the system text built from the prepend block, which holds the prefix if
    it is not empty and then the non-empty contents of the active prompts in
    ActiveSet order; the segments are joined by a blank line and the block is
    joined to the system text by a blank line; an empty system text leaves
    the block alone, and without a prefix and without active prompts the
    system text is returned unchanged.  With prompts [A, B, C] of non-empty
    content, prefix "SYS" and the indices [0, 2] activated, the result for
    ("orig", "u") is "SYS", A's content, C's content and "orig" joined by
    blank lines, and "u". *)
Theorem process_llm_request_prepends :
  (forall (MS : Type) (PM : PresetsManager.Ops MS) (AM : PromptsManager.Ops MS)
          (GM : GroupsManager.Ops MS) (self self' : Controller.t MS)
          (system_text user_text prefix : string),
      Controller.get_current_prefix self = (self', Ret prefix) ->
      let active := PromptsManager.active_prompts (Controller.managers self) in
      Controller.process_llm_request system_text user_text self
      = (self', Ret (join_block (prepend_block prefix active) system_text, user_text))
      /\ (prefix = "" -> active = [] ->
          Controller.process_llm_request system_text user_text self
          = (self', Ret (system_text, user_text))))
  /\ (forall A B C : Prompt.t,
        A <> C -> Prompt.content A <> "" -> Prompt.content C <> "" ->
        let activated :=
          fst (Controller.activate_multiple_prompts [0; 2]
                 (Sample.session [A; B; C] "SYS" [] ∅)) in
        active (Controller.managers activated) = [A; C]
        /\ Controller.process_llm_request "orig" "u" activated
           = (activated,
              Ret ("SYS" +:+ Controller.blank_line +:+ Prompt.content A
                   +:+ Controller.blank_line +:+ Prompt.content C
                   +:+ Controller.blank_line +:+ "orig", "u"))).
Proof.
  split.
  - intros MS PM AM GM self self' system_text user_text pfx Hprefix active.
    pose proof (process_llm_request_run system_text user_text pfx self self' Hprefix) as Hrun.
    fold active in Hrun. split; [exact Hrun |].
    intros -> Hnone. rewrite Hrun, Hnone. reflexivity.
  - intros A B C HAC HA HC activated.
    assert (Hrun : Controller.activate_multiple_prompts [0; 2]
                     (Sample.session [A; B; C] "SYS" [] ∅)
                   = (Controller.mk "P"
                        (saved "P" (set_active [A; C] (Sample.world [A; B; C] "SYS" [] ∅))),
                      Ret (true, ActivatedCount 2, [A; C]))).
    { rewrite activate_multiple_prompts_model.
      - rewrite !sample_current_prompts.
        cbn [Sample.session Controller.managers Controller.current_preset_name
             Sample.world active appended_by].
        change (Z.to_nat 0) with 0%nat. change (Z.to_nat 2) with 2%nat.
        cbn [lookup list_lookup].
        rewrite (bool_decide_eq_false_2 (A ∈ [])) by apply not_elem_of_nil.
        rewrite (bool_decide_eq_false_2 (C ∈ [] ++ [A])).
        + reflexivity.
        + cbn [app]. rewrite elem_of_cons, elem_of_nil. intuition congruence.
      - discriminate.
      - rewrite sample_current_prompts.
        repeat constructor; unfold in_range; cbn; lia. }
    subst activated. rewrite Hrun. cbn [fst]. split; [reflexivity |].
    match goal with
    | |- Controller.process_llm_request _ _ ?s = _ =>
      assert (Hprefix : Controller.get_current_prefix s = (s, Ret "SYS")) by reflexivity
    end.
    rewrite (process_llm_request_run "orig" "u" "SYS" _ _ Hprefix).
    cbn [Controller.managers Controller.current_preset_name].
    f_equal. f_equal. f_equal.
    change (PromptsManager.active_prompts
              (saved "P" (set_active [A; C] (Sample.world [A; B; C] "SYS" [] ∅))))
      with [A; C].
    unfold prepend_block. cbn [fmap list_fmap].
    rewrite filter_cons_True by assumption.
    rewrite filter_cons_True by assumption.
    rewrite filter_nil.
    change (truthy "SYS") with true. cbn [app join_block].
    change (truthy "orig") with true. cbn [String.concat].
    now rewrite !string_append_assoc.
Qed.

Lemma process_llm_request_prepends_witness :
  (let self := Sample.session [Sample.A; Sample.B; Sample.C] "SYS" [Sample.A; Sample.C] ∅ in
   Controller.process_llm_request "orig" "u" self
   = (self, Ret (join_block (prepend_block "SYS" [Sample.A; Sample.C]) "orig", "u")))
  /\ (let activated :=
        fst (Controller.activate_multiple_prompts [0; 2]
               (Sample.session [Sample.A; Sample.B; Sample.C] "SYS" [] ∅)) in
      active (Controller.managers activated) = [Sample.A; Sample.C]
      /\ Controller.process_llm_request "orig" "u" activated
         = (activated,
            Ret ("SYS" +:+ Controller.blank_line +:+ "alpha"
                 +:+ Controller.blank_line +:+ "gamma"
                 +:+ Controller.blank_line +:+ "orig", "u"))).
Proof.
  destruct process_llm_request_prepends as [Hgeneral Hscenario]. split.
  - destruct (Hgeneral World presets_manager prompts_manager groups_manager
                (Sample.session [Sample.A; Sample.B; Sample.C] "SYS" [Sample.A; Sample.C] ∅)
                (Sample.session [Sample.A; Sample.B; Sample.C] "SYS" [Sample.A; Sample.C] ∅)
                "orig" "u" "SYS" eq_refl) as [Hrun _].
    exact Hrun.
  - apply (Hscenario Sample.A Sample.B Sample.C); discriminate.
Defined.

Lemma prepend_block_all_empty (active : list Prompt.t) :
  Forall (fun p => Prompt.content p = "") active -> prepend_block "" active = [].
Proof.
  intros Hempty. unfold prepend_block. change (truthy "") with false. cbn [app].
  induction Hempty as [| p rest Hp _ IH]; [reflexivity |].
  cbn [fmap list_fmap]. rewrite filter_cons_False; [exact IH | tauto].
Qed.

(** C9: [process_llm_request] leaves out of the prepend block every active
    prompt whose content is the empty string, and an empty prefix gives no
    segment: the system text returned is the blank-line join of the non-empty
    strings among the prefix, the active contents in order and the system
    text.  With an empty prefix and an ActiveSet of empty-content prompts
    only, the system text is returned unchanged. *)
Theorem process_llm_request_skips_empty :
  forall (MS : Type) (PM : PresetsManager.Ops MS) (AM : PromptsManager.Ops MS)
         (GM : GroupsManager.Ops MS) (self self' : Controller.t MS)
         (system_text user_text prefix : string),
    Controller.get_current_prefix self = (self', Ret prefix) ->
    let active := PromptsManager.active_prompts (Controller.managers self) in
    Controller.process_llm_request system_text user_text self
    = (self',
       Ret (String.concat Controller.blank_line
              (filter (fun s => s <> "")
                      (prefix :: (Prompt.content <$> active) ++ [system_text])),
            user_text))
    /\ (prefix = "" -> Forall (fun p => Prompt.content p = "") active ->
        Controller.process_llm_request system_text user_text self
        = (self', Ret (system_text, user_text))).
Proof.
  intros MS PM AM GM self self' system_text user_text pfx Hprefix active.
  pose proof (process_llm_request_run system_text user_text pfx self self' Hprefix) as Hrun.
  fold active in Hrun. split.
  - rewrite Hrun. now rewrite join_block_filter.
  - intros -> Hempty. rewrite Hrun.
    now rewrite (prepend_block_all_empty _ Hempty).
Qed.

Lemma process_llm_request_skips_empty_witness :
  let self := Sample.session [Sample.E] "" [Sample.E] ∅ in
  Controller.process_llm_request "orig" "u" self = (self, Ret ("orig", "u")).
Proof.
  destruct (process_llm_request_skips_empty World presets_manager prompts_manager groups_manager
              (Sample.session [Sample.E] "" [Sample.E] ∅)
              (Sample.session [Sample.E] "" [Sample.E] ∅) "orig" "u" "" eq_refl)
    as [_ Hunchanged].
  apply Hunchanged; [reflexivity | repeat constructor].
Defined.

(** ** C3: result tuples and exceptions *)





(** ** C8: switch_preset out of range *)

(** C8: for every index outside the range of the preset list, the empty list
    included, [switch_preset] returns a failure outcome and leaves the
    current preset name, the active set, the loaded groups and the rest of
    the state as they were. *)
Theorem switch_preset_out_of_range_unchanged :
  forall (MS : Type) (PM : PresetsManager.Ops MS) (AM : PromptsManager.Ops MS)
         (GM : GroupsManager.Ops MS) (index : Z) (presets : list string)
         (self : Controller.t MS),
    PresetsManager.get_preset_list (Controller.managers self)
      = (Controller.managers self, Ret presets) ->
    ¬ (0 <= index < Z.of_nat (length presets)) ->
    exists msg, Controller.switch_preset index self = (self, Ret (false, msg)).
Proof.
  intros MS PM AM GM index presets self Hlist Hout.
  eexists. now apply (switch_preset_out_of_range index presets).
Qed.

Lemma switch_preset_out_of_range_unchanged_witness :
  exists msg,
    Controller.switch_preset 1 (Sample.session [Sample.A] "" [Sample.A] {["g" := [0]]})
    = (Sample.session [Sample.A] "" [Sample.A] {["g" := [0]]}, Ret (false, msg)).
Proof.
  apply (switch_preset_out_of_range_unchanged World presets_manager prompts_manager
           groups_manager 1 ["P"]).
  - reflexivity.
  - simpl. lia.
Defined.

(** On the managers of the specification the list of presets is read off the
    store, and the statement needs no assumption on them. *)
Lemma switch_preset_out_of_range_model (index : Z) (self : Controller.t World) :
  ¬ in_range (store (Controller.managers self)) index ->
  exists msg, Controller.switch_preset index self = (self, Ret (false, msg)).
Proof.
  intros Hout. eexists.
  apply (switch_preset_out_of_range index (store (Controller.managers self)).*1).
  - reflexivity.
  - unfold in_range in Hout. now rewrite length_fmap.
Qed.

(** ** C10: empty groups *)

(** C10, as stated, does not hold: after a refresh that finds no preset, no
    preset is selected while the groups loaded before are still there; the
    empty group "e" exists and [deactivate_prompt_group] returns a failure
    outcome for it. *)
Lemma deactivate_empty_group_without_preset :
  let self := fst (Controller.refresh_prompts Sample.before_empty_refresh) in
  Controller.current_preset_name self = ""
  /\ Controller.get_prompt_group "e" self = (self, Ret (Some []))
  /\ Controller.deactivate_prompt_group "e" self = (self, Ret (false, NoPresetSelected, [])).
Proof. cbv zeta. repeat split; reflexivity. Qed.

(** C10 (amended): when a preset is selected and the group name is not
    empty, [deactivate_prompt_group] on a group that exists and is empty
    returns a success outcome with an empty list of removed prompts and
    leaves the state, the ActiveSet included, as it was;
    [activate_prompt_group] on an existing empty group returns a failure
    outcome and leaves the state as it was. *)
Theorem empty_group_deactivate_and_activate :
  forall (MS : Type) (PM : PresetsManager.Ops MS) (AM : PromptsManager.Ops MS)
         (GM : GroupsManager.Ops MS) (group_name : string) (self : Controller.t MS),
    GroupsManager.get_prompt_group group_name (Controller.managers self)
      = (Controller.managers self, Ret (Some [])) ->
    (Controller.current_preset_name self <> "" -> group_name <> "" ->
     Controller.deactivate_prompt_group group_name self
     = (self, Ret (true, GroupEmptyNothingToClose group_name, [])))
    /\ (forall all_prompts,
          Controller.get_current_prompts self = (self, Ret all_prompts) ->
          exists msg,
            Controller.activate_prompt_group group_name self = (self, Ret (false, msg, []))).
Proof.
  intros MS PM AM GM group_name self Hgroup. split.
  - intros Hcur Hname. now apply deactivate_prompt_group_empty.
  - intros all_prompts Hprompts. now apply (activate_prompt_group_empty group_name all_prompts).
Qed.

Lemma empty_group_deactivate_and_activate_witness :
  let self := Sample.session [Sample.A; Sample.B] "" [Sample.A] {["e" := []]} in
  Controller.deactivate_prompt_group "e" self
    = (self, Ret (true, GroupEmptyNothingToClose "e", []))
  /\ exists msg, Controller.activate_prompt_group "e" self = (self, Ret (false, msg, [])).
Proof.
  cbv zeta.
  assert (Hgroup :
    GroupsManager.get_prompt_group "e"
      (Controller.managers (Sample.session [Sample.A; Sample.B] "" [Sample.A] {["e" := []]}))
    = (Controller.managers (Sample.session [Sample.A; Sample.B] "" [Sample.A] {["e" := []]}),
       Ret (Some []))) by reflexivity.
  destruct (empty_group_deactivate_and_activate World presets_manager prompts_manager
              groups_manager "e"
              (Sample.session [Sample.A; Sample.B] "" [Sample.A] {["e" := []]}) Hgroup)
    as [Hdeactivate Hactivate].
  split.
  - apply Hdeactivate; discriminate.
  - apply (Hactivate [Sample.A; Sample.B]). reflexivity.
Defined.

(** ** C2: validation before activate *)

Lemma activate_multiple_prompts_rejects_invalid {MS : Type}
    `{!PresetsManager.Ops MS, !PromptsManager.Ops MS, !GroupsManager.Ops MS}
    (indices : list Z) (all_prompts : list Prompt.t) (self : Controller.t MS) :
  Controller.get_current_prompts self = (self, Ret all_prompts) ->
  indices <> [] -> all_prompts <> [] ->
  ¬ Forall (in_range all_prompts) indices ->
  exists msg, Controller.activate_multiple_prompts indices self = (self, Ret (false, msg, [])).
Proof.
  intros Hprompts Hidx Hall Hinvalid.
  apply nonempty_true in Hidx. apply nonempty_true in Hall.
  assert (Hfilter : nonempty (filter (fun idx => ¬ (0 <= idx <= Z.of_nat (length all_prompts) - 1))
                                     indices) = true).
  { apply nonempty_true. intros Hnil. apply Hinvalid.
    apply Forall_forall. intros idx Hin.
    destruct (decide (in_range all_prompts idx)) as [Hok | Hbad]; [exact Hok |].
    assert (Hmem : idx ∈ filter (fun idx => ¬ (0 <= idx <= Z.of_nat (length all_prompts) - 1))
                                indices).
    { apply list_elem_of_filter. split; [| exact Hin].
      unfold in_range in Hbad. lia. }
    rewrite Hnil in Hmem. now apply elem_of_nil in Hmem. }
  eexists. apply try_except_Ret.
  rewrite Hidx. cbn [negb]. rewrite (bind_Ret _ _ _ _ _ Hprompts).
  rewrite Hall. cbn [negb]. cbv zeta. now rewrite Hfilter.
Qed.

Lemma activate_prompt_rejects_invalid {MS : Type}
    `{!PresetsManager.Ops MS, !PromptsManager.Ops MS, !GroupsManager.Ops MS}
    (index : Z) (all_prompts : list Prompt.t) (self : Controller.t MS) :
  Controller.get_current_prompts self = (self, Ret all_prompts) ->
  ¬ in_range all_prompts index ->
  exists msg, Controller.activate_prompt index self = (self, Ret (false, msg, None)).
Proof.
  intros Hprompts Hinvalid. unfold in_range in Hinvalid.
  destruct (nonempty all_prompts) eqn:Hall; eexists; apply try_except_Ret;
    rewrite (bind_Ret _ _ _ _ _ Hprompts); rewrite Hall; cbn [negb]; [| reflexivity].
  now rewrite (bool_decide_eq_false_2 _ Hinvalid).
Qed.

(** C2 (violated in [activate_prompt_group]): group expansion does not
    validate.  When the group exists and is not empty, the stored indices are
    handed to the prompts manager's [activate_prompts] exactly as stored,
    in range or not, and the outcome of the method is what the manager makes
    of them: no index is skipped and none is reported by the controller. *)
Theorem activate_prompt_group_hands_over_stored_indices :
  forall (MS : Type) (PM : PresetsManager.Ops MS) (AM : PromptsManager.Ops MS)
         (GM : GroupsManager.Ops MS) (group_name : string) (all_prompts : list Prompt.t)
         (indices : list Z) (self : Controller.t MS),
    all_prompts <> [] -> group_name <> "" -> indices <> [] ->
    Controller.get_current_prompts self = (self, Ret all_prompts) ->
    GroupsManager.get_prompt_group group_name (Controller.managers self)
      = (Controller.managers self, Ret (Some indices)) ->
    Controller.activate_prompt_group group_name self
    = let '(ms, r) :=
        PromptsManager.activate_prompts all_prompts indices (Controller.managers self) in
      (Controller.mk (Controller.current_preset_name self) ms,
       Ret (group_activation_outcome group_name r)).
Proof.
  intros MS PM AM GM group_name all_prompts indices self. apply activate_prompt_group_run.
Qed.

Lemma activate_prompt_group_hands_over_stored_indices_witness :
  let self := Sample.session [Sample.A; Sample.B] "" [] {["g" := [0; 2]]} in
  ¬ in_range [Sample.A; Sample.B] 2
  /\ Controller.activate_prompt_group "g" self
     = (let '(ms, r) :=
          ActivationTracker.activate [Sample.A; Sample.B] [0; 2] (Controller.managers self) in
        (Controller.mk "P" ms, Ret (group_activation_outcome "g" r))).
Proof.
  cbv zeta. split.
  - unfold in_range. simpl. lia.
  - apply (activate_prompt_group_hands_over_stored_indices World presets_manager
             prompts_manager groups_manager "g" [Sample.A; Sample.B] [0; 2]);
      solve [discriminate | reflexivity].
Defined.

(** On the managers of the specification the unchecked index makes the whole
    group activation fail, after the prompt at index 0 has been activated. *)
Lemma activate_prompt_group_stale_index :
  let self := Sample.session [Sample.A; Sample.B] "" [] {["g" := [0; 2]]} in
  Controller.activate_prompt_group "g" self
  = (Sample.session [Sample.A; Sample.B] "" [Sample.A] {["g" := [0; 2]]},
     Ret (false, ActivateGroupInternalError "g", [])).
Proof. reflexivity. Qed.

(** ** C4: activation is idempotent *)

Lemma saved_store (preset_name : string) (w : World) : store (saved preset_name w) = store w.
Proof. unfold saved. now destruct (writable w). Qed.

Lemma saved_active (preset_name : string) (w : World) : active (saved preset_name w) = active w.
Proof. unfold saved. now destruct (writable w). Qed.

(** C4, as stated, does not hold: the empty list is a list of valid indices,
    and [activate_multiple_prompts] answers it with a failure outcome, the
    second time as the first. *)
Lemma activate_empty_list_twice :
  let self := Sample.session [Sample.A; Sample.B; Sample.C] "" [] ∅ in
  let once := fst (Controller.activate_multiple_prompts [] self) in
  Forall (in_range (current_prompts self)) []
  /\ Controller.activate_multiple_prompts [] once = (once, Ret (false, IndexListEmpty, [])).
Proof. cbv zeta. split; [constructor | reflexivity]. Qed.

(** C4 (amended): for every non-empty list of valid indices into the current
    prompt list, a second call of [activate_multiple_prompts] with the same
    indices returns a success outcome whose list of newly activated prompts
    is empty, and leaves the state it found, the ActiveSet with its contents,
    order and size included, unchanged. *)
Theorem activate_multiple_prompts_idempotent (indices : list Z) (self : Controller.t World) :
  indices <> [] ->
  Forall (in_range (current_prompts self)) indices ->
  let once := fst (Controller.activate_multiple_prompts indices self) in
  Controller.activate_multiple_prompts indices once
  = (once, Ret (true, AllSelectedAlreadyActive, [])).
Proof.
  intros Hne Hvalid once.
  pose proof (activate_multiple_prompts_model indices self Hne Hvalid) as Hfirst.
  cbv zeta in Hfirst.
  set (all_prompts := current_prompts self) in *.
  set (act := active (Controller.managers self)) in *.
  set (newly := appended_by all_prompts indices act) in *.
  assert (Hpresent : forall idx p,
             idx ∈ indices -> all_prompts !! Z.to_nat idx = Some p -> p ∈ act ++ newly).
  { intros idx p. apply appended_by_covers. }
  destruct (nonempty newly) eqn:Hnew.
  - assert (Honce : once = Controller.mk (Controller.current_preset_name self)
                             (saved (Controller.current_preset_name self)
                                    (set_active (act ++ newly) (Controller.managers self)))).
    { subst once. now rewrite Hfirst. }
    assert (Hsame : current_prompts once = all_prompts).
    { rewrite Honce. unfold current_prompts.
      cbn [Controller.current_preset_name Controller.managers].
      now rewrite saved_store. }
    assert (Hactive : active (Controller.managers once) = act ++ newly).
    { rewrite Honce. cbn [Controller.managers]. now rewrite saved_active. }
    pose proof (activate_multiple_prompts_model indices once Hne) as Hsecond.
    rewrite Hsame in Hsecond. specialize (Hsecond Hvalid). cbv zeta in Hsecond.
    rewrite Hactive in Hsecond.
    rewrite (appended_by_present _ _ _ Hpresent) in Hsecond.
    exact Hsecond.
  - assert (Honce : once = self).
    { subst once. now rewrite Hfirst. }
    rewrite Honce, Hfirst. reflexivity.
Qed.

Lemma activate_multiple_prompts_idempotent_witness :
  let self := Sample.session [Sample.A; Sample.B; Sample.C] "" [Sample.B] ∅ in
  let once := fst (Controller.activate_multiple_prompts [0; 1; 0] self) in
  active (Controller.managers once) = [Sample.B; Sample.A]
  /\ Controller.activate_multiple_prompts [0; 1; 0] once
     = (once, Ret (true, AllSelectedAlreadyActive, [])).
Proof.
  cbv zeta. split; [reflexivity |].
  apply (activate_multiple_prompts_idempotent [0; 1; 0]
           (Sample.session [Sample.A; Sample.B; Sample.C] "" [Sample.B] ∅)).
  - discriminate.
  - repeat constructor; unfold in_range; simpl; lia.
Defined.

(** ** C5: removal by several active-list indices *)

(** C5 (violated for a repeated index): with the ActiveSet [A, B, C],
    deactivating the active-list indices [1, 1] in one call removes B and
    then C.  The first removal moves C from position 2 to position 1, where
    the second removal takes it, although position 2 was not asked for. *)
Theorem deactivate_duplicate_index (cur : string) (w : World) (A B C : Prompt.t) :
  active w = [A; B; C] ->
  Controller.deactivate_multiple_prompts [1; 1] (Controller.mk cur w)
  = (Controller.mk cur (set_active [A] w),
     Ret (true, DeactivatedCount 2, [B; C])).
Proof.
  intros Hact. destruct w as [st du ex act mk gs sg wr]. cbn in Hact. subst act.
  reflexivity.
Qed.

Lemma deactivate_duplicate_index_witness :
  Controller.deactivate_multiple_prompts [1; 1]
    (Sample.session [Sample.A; Sample.B; Sample.C] "" [Sample.A; Sample.B; Sample.C] ∅)
  = (Sample.session [Sample.A; Sample.B; Sample.C] "" [Sample.A] ∅,
     Ret (true, DeactivatedCount 2, [Sample.B; Sample.C])).
Proof.
  apply (deactivate_duplicate_index "P"
           (Sample.world [Sample.A; Sample.B; Sample.C] "" [Sample.A; Sample.B; Sample.C] ∅)).
  reflexivity.
Defined.

(** ** C6: refresh_prompts *)

(** C6: when the extraction succeeds, [refresh_prompts] replaces the store by
    what was extracted, empties the active set, makes the first preset
    current (the empty name if there is none), loads the groups saved for
    that preset, and returns a success outcome with the number of presets
    and the total number of prompts; when the extraction fails it returns a
    failure outcome without statistics and leaves the state, the current
    preset name and the active set included, unchanged. *)
Theorem refresh_prompts_outcome (self : Controller.t World) :
  match extraction (Controller.managers self) with
  | Some st =>
    exists msg,
      let self' := fst (Controller.refresh_prompts self) in
      let w' := Controller.managers self' in
      Controller.refresh_prompts self
        = (self', Ret (true, msg,
                       Some {| preset_count := length st;
                               prompt_count :=
                                 sum_list ((fun entry => length (prompts entry.2)) <$> st) |}))
      /\ store w' = st
      /\ active w' = []
      /\ Controller.current_preset_name self' = default "" (head st.*1)
      /\ match head st.*1 with
         | Some first => groups w' = default ∅ (saved_groups w' !! first)
         | None => True
         end
  | None =>
    Controller.refresh_prompts self = (self, Ret (false, ExtractionFailed, None))
  end.
Proof.
  rewrite refresh_prompts_model.
  destruct (extraction (Controller.managers self)) as [st |]; [| reflexivity].
  eexists. cbn [fst]. split; [reflexivity |].
  destruct st as [| [first p] st]; cbn; auto.
Qed.

(** ** C7: deactivate_prompt_group *)




(** * Further properties of the controller

    Properties of controller.py beyond the claims, each proved for every
    implementation of the managers unless it says otherwise, with an instance
    on the sample sessions where it has assumptions. *)

(** ** Path analysis

    Case analysis over every path of a method: the outcome of each manager
    call, each guard and each loop. *)

Ltac unfold_methods H :=
  unfold invoke, returning, tuple2, tuple3,
    Controller.switch_preset, Controller.create_preset, Controller.refresh_prompts,
    Controller.activate_prompt, Controller.activate_multiple_prompts,
    Controller.activate_prompt_group, Controller.deactivate_prompt,
    Controller.deactivate_multiple_prompts, Controller.deactivate_prompt_group,
    Controller.clear_active_prompts, Controller.add_prompt, Controller.update_prompt,
    Controller.delete_prompt, Controller.create_prompt_group,
    Controller.update_prompt_group, Controller.delete_prompt_group,
    Controller.get_preset_list, Controller.get_current_preset_name,
    Controller.get_current_prompts, Controller.get_current_prefix,
    Controller.get_active_prompts, Controller.get_prompt_groups,
    Controller.get_prompt_group, Controller.process_llm_request, Controller.terminate,
    Controller.attr, Controller.set_current_preset_name,
    try_except, bind, ret, read, update in H.

Ltac all_paths H :=
  unfold_methods H; cbn beta iota zeta in H;
  repeat (case_match; simplify_eq/=).

(** An index access that returns leaves the state alone and, for an index that
    is not negative, returns the element at that index. *)
Lemma py_getitem_Ret {S A : Type} (l : list A) (i : Z) (s s' : S) (x : A) :
  py_getitem l i s = (s', Ret x) ->
  s' = s /\ (0 <= i -> l !! Z.to_nat i = Some x).
Proof.
  unfold py_getitem, ret, raise. cbv zeta. intros Hget.
  destruct (bool_decide (i < 0)) eqn:Hneg.
  - apply bool_decide_eq_true in Hneg.
    repeat case_match; simplify_eq. split; [reflexivity | lia].
  - repeat case_match; simplify_eq. split; [reflexivity | done].
Qed.

Lemma string_append_nil_r (s : string) : s +:+ "" = s.
Proof.
  induction s as [| c s IH]; [reflexivity |].
  change (String c (s +:+ "") = String c s). now rewrite IH.
Qed.

(** A handler that only raises again is no handler. *)
Lemma try_except_reraise {S A : Type} (body : Py S A) (s : S) :
  try_except body (fun e => raise e) s = body s.
Proof. unfold try_except, raise. now destruct (body s) as [s' [a | e]]. Qed.

(** Sorting the valid positions forgets the order they were given in. *)
Lemma sorted_valid_Permutation {A : Type} (act : list A) (l1 l2 : list Z) :
  l1 ≡ₚ l2 ->
  merge_sort Z.ge (filter (in_range act) l1) = merge_sort Z.ge (filter (in_range act) l2).
Proof.
  intros Hperm. apply (Sorted_unique Z.ge).
  - apply Sorted_merge_sort; apply _.
  - apply Sorted_merge_sort; apply _.
  - rewrite !merge_sort_Permutation. now rewrite Hperm.
Qed.

(** ** Start-up: __init__, _initialize and _ensure_directory_exists *)

Section StartUp.

Context {MS : Type}.
Context `{!FileSystem.Ops MS, !PresetsManager.Ops MS, !PromptsManager.Ops MS,
          !GroupsManager.Ops MS}.

Lemma ensure_directory_exists_keeps_selection (directory : string) (self : Controller.t MS) :
  Controller.current_preset_name (Startup._ensure_directory_exists directory self).1
  = Controller.current_preset_name self.
Proof.
  unfold Startup._ensure_directory_exists, try_except_of, bind, ret, Controller.call.
  repeat (case_match; simplify_eq/=); done.
Qed.


(** X2: the handler of [_initialize] raises again: when both folders are
    in place and [load_presets] raises, the constructor raises that same
    exception, with no preset selected. *)
Lemma init_propagates (presets_folder output_folder : string) (ms ms' : MS)
    (s1 s2 : Controller.t MS) (e : exn) :
  Startup._ensure_directory_exists presets_folder (Controller.mk "" ms) = (s1, Ret tt) ->
  Startup._ensure_directory_exists output_folder s1 = (s2, Ret tt) ->
  PresetsManager.load_presets (Controller.managers s2) = (ms', Raise e) ->
  Startup.__init__ presets_folder output_folder ms = (Controller.mk "" ms', Raise e).
Proof.
  intros Hpresets Houtput Hload.
  unfold Startup.__init__, Startup._initialize. rewrite try_except_reraise.
  rewrite (bind_Ret _ _ _ _ _ Hpresets), (bind_Ret _ _ _ _ _ Houtput).
  pose proof (ensure_directory_exists_keeps_selection presets_folder (Controller.mk "" ms))
    as K1.
  rewrite Hpresets in K1.
  pose proof (ensure_directory_exists_keeps_selection output_folder s1) as K2.
  rewrite Houtput in K2. cbn [fst Controller.current_preset_name] in K1, K2.
  unfold bind, Controller.call. rewrite Hload. rewrite K2, K1. reflexivity.
Qed.

(** X3: [_ensure_directory_exists] never lets an OSError out and
    never touches the current preset name, whatever the file system does. *)
Lemma ensure_directory_exists_outcome (directory : string) (self : Controller.t MS) :
  let '(self', r) := Startup._ensure_directory_exists directory self in
  Controller.current_preset_name self' = Controller.current_preset_name self
  /\ match r with
     | Ret _ => True
     | Raise e => FileSystem.is_OSError e = false
     end.
Proof.
  unfold Startup._ensure_directory_exists, try_except_of, bind, ret, Controller.call.
  repeat (case_match; simplify_eq/=); split; try done.
Qed.

(** X4: on a file system whose [exists] and [mkdir] raise nothing but
    OSErrors, [_ensure_directory_exists] always returns: a folder that cannot
    be created does not stop the start-up. *)
Lemma ensure_directory_exists_returns (directory : string) (self : Controller.t MS) :
  (forall ms ms' e, FileSystem.path_exists directory ms = (ms', Raise e) ->
                    FileSystem.is_OSError e = true) ->
  (forall ms ms' e, FileSystem.mkdir directory ms = (ms', Raise e) ->
                    FileSystem.is_OSError e = true) ->
  exists self', Startup._ensure_directory_exists directory self = (self', Ret tt).
Proof.
  intros Hexists Hmkdir.
  unfold Startup._ensure_directory_exists, try_except_of, bind, ret, Controller.call.
  repeat (case_match; simplify_eq/=); eauto.
  all: try match goal with a : unit |- _ => destruct a; eauto end.
  all: match goal with
       | H : FileSystem.path_exists _ _ = (_, Raise _) |- _ => apply Hexists in H
       | H : FileSystem.mkdir _ _ = (_, Raise _) |- _ => apply Hmkdir in H
       end; congruence.
Qed.

End StartUp.


Lemma init_propagates_witness :
  exists ms',
    @Startup.__init__ World Environment.present Environment.broken_presets prompts_manager
      groups_manager "presets" "out" (Sample.world [Sample.A; Sample.B] "" [] ∅)
    = (Controller.mk "" ms', Raise (Exception "JSONDecodeError")).
Proof.
  eexists.
  eapply (@init_propagates World Environment.present Environment.broken_presets
            prompts_manager groups_manager "presets" "out"
            (Sample.world [Sample.A; Sample.B] "" [] ∅)); reflexivity.
Defined.

Lemma ensure_directory_exists_returns_witness :
  exists self',
    @Startup._ensure_directory_exists World Environment.read_only "presets"
      (Sample.session [Sample.A] "" [] ∅)
    = (self', Ret tt).
Proof.
  apply (@ensure_directory_exists_returns World Environment.read_only "presets"
           (Sample.session [Sample.A] "" [] ∅)).
  - intros ms ms' e Hraise. discriminate Hraise.
  - intros ms ms' e Hraise. injection Hraise as _ <-. reflexivity.
Defined.

(** ** Presets: switch_preset, create_preset and refresh_prompts *)

Section PresetSelection.

Context {MS : Type}.
Context `{!PresetsManager.Ops MS, !PromptsManager.Ops MS, !GroupsManager.Ops MS}.

(** X5: when [switch_preset] succeeds, the index was within the preset
    list, the current preset is now the name at that index, and the message
    names that preset. *)
Lemma switch_preset_success_run (index : Z) (presets : list string) (ms0 : MS)
    (self self' : Controller.t MS) (msg : message) :
  PresetsManager.get_preset_list (Controller.managers self) = (ms0, Ret presets) ->
  Controller.switch_preset index self = (self', Ret (true, msg)) ->
  0 <= index < Z.of_nat (length presets)
  /\ presets !! Z.to_nat index = Some (Controller.current_preset_name self')
  /\ msg = SwitchedToPreset (Controller.current_preset_name self').
Proof.
  intros Hlist Hrun. unfold_methods Hrun. unfold Controller.call in Hrun.
  rewrite Hlist in Hrun. cbn beta iota zeta in Hrun.
  repeat (case_match; simplify_eq/=).
  all: match goal with H : bool_decide _ = true |- _ => apply bool_decide_eq_true in H end.
  all: match goal with H : py_getitem _ _ _ = _ |- _ => apply py_getitem_Ret in H as [_ Hx] end.
  all: split; [assumption |]; split; [apply Hx; lia | reflexivity].
Qed.

(** X6: [switch_preset] is not undone by its handler: when the groups
    of the new preset fail to load, the call reports an internal error, yet the
    new preset is already the current one and the active prompts are already
    cleared. *)
Lemma switch_preset_interrupted (index : Z) (presets : list string) (new_preset : string)
    (ms1 ms2 : MS) (n : nat) (e : exn) (self : Controller.t MS) :
  PresetsManager.get_preset_list (Controller.managers self)
    = (Controller.managers self, Ret presets) ->
  0 <= index -> presets !! Z.to_nat index = Some new_preset ->
  PromptsManager.clear_active_prompts (Controller.managers self) = (ms1, Ret n) ->
  GroupsManager.load_prompt_groups new_preset ms1 = (ms2, Raise e) ->
  Controller.switch_preset index self
  = (Controller.mk new_preset ms2, Ret (false, SwitchPresetInternalError)).
Proof.
  intros Hlist Hi Hnew Hclear Hload.
  assert (Hrange : 0 <= index < Z.of_nat (length presets)).
  { apply lookup_lt_Some in Hnew. lia. }
  assert (Hne : nonempty presets = true).
  { apply nonempty_true. intros ->. cbn in Hrange. lia. }
  unfold Controller.switch_preset, Controller.get_preset_list, try_except, bind,
    Controller.call, Controller.set_current_preset_name, read, update.
  rewrite Hlist, Hne. cbn [negb]. rewrite (bool_decide_eq_true_2 _ Hrange).
  cbn [Controller.managers Controller.current_preset_name]. rewrite Hclear.
  destruct (py_getitem_in_range (S := Controller.t MS) presets index
              (Controller.mk (Controller.current_preset_name self) ms1) Hrange)
    as (x & Hx & Hget).
  rewrite Hget. cbn [Controller.managers Controller.current_preset_name].
  rewrite Hnew in Hx. injection Hx as <-. rewrite Hload. reflexivity.
Qed.

(** X7: when [create_preset] succeeds, the name was not empty and the
    new preset is the current one. *)
Lemma create_preset_success_run (name : string) (self self' : Controller.t MS) (msg : message) :
  Controller.create_preset name self = (self', Ret (true, msg)) ->
  name <> "" /\ Controller.current_preset_name self' = name /\ msg = PresetCreated name.
Proof.
  intros Hrun. unfold_methods Hrun. unfold Controller.call in Hrun.
  cbn beta iota zeta in Hrun.
  repeat (case_match; simplify_eq/=).
  match goal with H : negb (truthy _) = false |- _ =>
    apply negb_false_iff, truthy_true in H end.
  done.
Qed.

(** X8: when the presets manager refuses to create the preset, the call
    fails and the current preset stays what it was. *)
Lemma create_preset_refused (name : string) (ms1 : MS) (self : Controller.t MS) :
  name <> "" ->
  PresetsManager.create_preset name (Controller.managers self) = (ms1, Ret false) ->
  Controller.create_preset name self
  = (Controller.mk (Controller.current_preset_name self) ms1,
     Ret (false, PresetCreateFailed name)).
Proof.
  intros Hname Hcreate. apply truthy_true in Hname.
  apply try_except_Ret. rewrite Hname. cbn [negb].
  now rewrite (bind_Ret _ _ _ _ _ (call_run _ _ _ _ Hcreate)).
Qed.


End PresetSelection.

Lemma switch_preset_success_run_witness :
  exists self' msg,
    Controller.switch_preset 0
      (Sample.session [Sample.A; Sample.B] "" [Sample.A] {["g" := [0]]})
    = (self', Ret (true, msg))
    /\ ["P"] !! Z.to_nat 0 = Some (Controller.current_preset_name self')
    /\ msg = SwitchedToPreset (Controller.current_preset_name self').
Proof.
  do 2 eexists. split; [reflexivity |].
  edestruct (switch_preset_success_run (MS := World) 0 ["P"]
               (Sample.world [Sample.A; Sample.B] "" [Sample.A] {["g" := [0]]})
               (Sample.session [Sample.A; Sample.B] "" [Sample.A] {["g" := [0]]}))
    as (_ & Hname & Hmsg); [reflexivity | reflexivity |].
  split; [exact Hname | exact Hmsg].
Defined.

Lemma switch_preset_interrupted_witness :
  exists ms,
    @Controller.switch_preset World presets_manager prompts_manager Environment.broken_groups 0
      (Sample.session [Sample.A; Sample.B] "" [Sample.A] {["g" := [0]]})
    = (Controller.mk "P" ms, Ret (false, SwitchPresetInternalError))
    /\ active ms = [].
Proof.
  eexists. split.
  - eapply (@switch_preset_interrupted World presets_manager prompts_manager
              Environment.broken_groups 0 ["P"] "P" _ _ _ _
              (Sample.session [Sample.A; Sample.B] "" [Sample.A] {["g" := [0]]}));
      [reflexivity | lia | reflexivity | reflexivity | reflexivity].
  - reflexivity.
Defined.

Lemma create_preset_success_run_witness :
  exists self' msg,
    Controller.create_preset "Q"
      (Sample.session [Sample.A; Sample.B] "" [Sample.A] {["g" := [0]]})
    = (self', Ret (true, msg))
    /\ Controller.current_preset_name self' = "Q" /\ msg = PresetCreated "Q".
Proof.
  do 2 eexists. split; [reflexivity |].
  edestruct (create_preset_success_run (MS := World) "Q"
               (Sample.session [Sample.A; Sample.B] "" [Sample.A] {["g" := [0]]}))
    as (_ & Hname & Hmsg); [reflexivity |].
  split; [exact Hname | exact Hmsg].
Defined.

Lemma create_preset_refused_witness :
  exists ms,
    Controller.create_preset "P"
      (Sample.session [Sample.A; Sample.B] "" [Sample.A] {["g" := [0]]})
    = (Controller.mk "P" ms, Ret (false, PresetCreateFailed "P")).
Proof.
  eexists.
  apply (create_preset_refused (MS := World) "P" _
           (Sample.session [Sample.A; Sample.B] "" [Sample.A] {["g" := [0]]}));
    [discriminate | reflexivity].
Defined.


(** ** Activation and removal *)

Section ActivationGuards.

Context {MS : Type}.
Context `{!PresetsManager.Ops MS, !PromptsManager.Ops MS, !GroupsManager.Ops MS}.

(** X10: activating a prompt that is already active succeeds, reports
    it as already active, and changes nothing. *)
Lemma activate_prompt_present (index : Z) (all_prompts : list Prompt.t) (prompt : Prompt.t)
    (self : Controller.t MS) :
  Controller.get_current_prompts self = (self, Ret all_prompts) ->
  0 <= index -> all_prompts !! Z.to_nat index = Some prompt ->
  prompt ∈ PromptsManager.active_prompts (Controller.managers self) ->
  Controller.activate_prompt index self
  = (self, Ret (true, PromptAlreadyActive (Prompt.name prompt), Some prompt)).
Proof.
  intros Hprompts Hi Hlookup Hactive.
  assert (Hrange : 0 <= index < Z.of_nat (length all_prompts)).
  { apply lookup_lt_Some in Hlookup. lia. }
  assert (Hne : nonempty all_prompts = true).
  { apply nonempty_true. intros ->. cbn in Hrange. lia. }
  destruct (py_getitem_in_range (S := Controller.t MS) all_prompts index self Hrange)
    as (x & Hx & Hget).
  rewrite Hlookup in Hx. injection Hx as <-.
  apply try_except_Ret. rewrite (bind_Ret _ _ _ _ _ Hprompts).
  rewrite Hne. cbn [negb]. rewrite (bool_decide_eq_true_2 _ Hrange).
  rewrite (bind_Ret _ _ _ _ _ Hget). cbv zeta.
  unfold bind at 1. unfold Controller.attr, read.
  now rewrite (bool_decide_eq_true_2 _ Hactive).
Qed.

(** X11: [activate_multiple_prompts] is all or nothing on its
    indices: one index outside the prompt list makes the call fail with
    nothing activated, and the message lists exactly the indices outside the
    list, in the order given, with the largest valid index. *)
Lemma activate_multiple_prompts_invalid_run (indices : list Z) (all_prompts : list Prompt.t)
    (self : Controller.t MS) :
  Controller.get_current_prompts self = (self, Ret all_prompts) ->
  all_prompts <> [] ->
  ¬ Forall (in_range all_prompts) indices ->
  Controller.activate_multiple_prompts indices self
  = (self,
     Ret (false,
          InvalidPromptIndices (filter (fun idx => ¬ in_range all_prompts idx) indices)
                               (Z.of_nat (length all_prompts) - 1),
          [])).
Proof.
  intros Hprompts Hall Hinvalid.
  assert (Hidx : indices <> []).
  { intros ->. apply Hinvalid. constructor. }
  assert (Hsame : filter (fun idx => ¬ (0 <= idx <= Z.of_nat (length all_prompts) - 1)) indices
                  = filter (fun idx => ¬ in_range all_prompts idx) indices).
  { apply list_filter_iff. intros idx. unfold in_range. lia. }
  assert (Hfilter : filter (fun idx => ¬ in_range all_prompts idx) indices <> []).
  { intros Hnil. apply Hinvalid. apply Forall_forall. intros idx Hin.
    destruct (decide (in_range all_prompts idx)) as [Hok | Hbad]; [exact Hok |].
    assert (Hmem : idx ∈ filter (fun idx => ¬ in_range all_prompts idx) indices).
    { apply list_elem_of_filter. now split. }
    rewrite Hnil in Hmem. now apply elem_of_nil in Hmem. }
  apply nonempty_true in Hidx. apply nonempty_true in Hall. apply nonempty_true in Hfilter.
  apply try_except_Ret.
  rewrite Hidx. cbn [negb]. rewrite (bind_Ret _ _ _ _ _ Hprompts).
  rewrite Hall. cbn [negb]. cbv zeta. rewrite Hsame. now rewrite Hfilter.
Qed.

(** X12: [deactivate_prompt] at a position outside the active list
    fails and changes nothing. *)
Lemma deactivate_prompt_invalid (index : Z) (self : Controller.t MS) :
  ¬ in_range (PromptsManager.active_prompts (Controller.managers self)) index ->
  exists msg, Controller.deactivate_prompt index self = (self, Ret (false, msg, None)).
Proof.
  set (act := PromptsManager.active_prompts (Controller.managers self)).
  intros Hinvalid. unfold in_range in Hinvalid.
  destruct (nonempty act) eqn:Hactive; eexists; apply try_except_Ret;
    unfold bind at 1; unfold Controller.attr at 1; unfold read at 1; fold act;
    rewrite Hactive; cbn [negb]; [| reflexivity].
  now rewrite (bool_decide_eq_false_2 _ Hinvalid).
Qed.

(** With a valid position among the indices, [deactivate_multiple_prompts] is
    the removal loop over the valid positions, sorted from high to low. *)
Lemma deactivate_multiple_prompts_some_valid (indices : list Z) (self : Controller.t MS) :
  let act := PromptsManager.active_prompts (Controller.managers self) in
  filter (in_range act) indices <> [] ->
  Controller.deactivate_multiple_prompts indices self
  = try_except (remove_sorted (merge_sort Z.ge (filter (in_range act) indices)))
      (fun _ => ret (false, DeactivateMultipleInternalError, [])) self.
Proof.
  intros act Hvalid.
  assert (Hfilter : filter (fun idx => 0 <= idx <= Z.of_nat (length act) - 1) indices
                    = filter (in_range act) indices).
  { apply list_filter_iff. intros idx. unfold in_range. lia. }
  assert (Hindices : nonempty indices = true).
  { apply nonempty_true. intros ->. now apply Hvalid. }
  assert (Hactive : nonempty act = true).
  { apply nonempty_true. intros Hnil.
    destruct (filter (in_range act) indices) as [| i rest] eqn:Hv; [congruence |].
    assert (Hi : i ∈ filter (in_range act) indices).
    { rewrite Hv. apply elem_of_cons. now left. }
    apply list_elem_of_filter in Hi as [Hi _]. unfold in_range in Hi.
    rewrite Hnil in Hi. cbn in Hi. lia. }
  apply nonempty_true in Hvalid.
  unfold Controller.deactivate_multiple_prompts, try_except.
  rewrite Hindices. cbn [negb].
  unfold bind at 1. unfold Controller.attr at 1. unfold read at 1. fold act.
  rewrite Hactive. cbn [negb]. cbv zeta. rewrite Hfilter, Hvalid. cbn [negb].
  rewrite andb_false_r. reflexivity.
Qed.

(** X13: when none of the positions is within the active list,
    [deactivate_multiple_prompts] fails with an empty list and changes
    nothing. *)
Lemma deactivate_multiple_prompts_none_valid (indices : list Z) (self : Controller.t MS) :
  filter (in_range (PromptsManager.active_prompts (Controller.managers self))) indices = [] ->
  exists msg, Controller.deactivate_multiple_prompts indices self = (self, Ret (false, msg, [])).
Proof.
  set (act := PromptsManager.active_prompts (Controller.managers self)).
  intros Hnone.
  assert (Hfilter : filter (fun idx => 0 <= idx <= Z.of_nat (length act) - 1) indices = []).
  { rewrite <- Hnone. apply list_filter_iff. intros idx. unfold in_range. lia. }
  destruct (nonempty indices) eqn:Hindices.
  - destruct (nonempty act) eqn:Hactive.
    + assert (Hinvalid :
        nonempty (filter (fun idx => ¬ (0 <= idx <= Z.of_nat (length act) - 1)) indices)
        = true).
      { destruct indices as [| i rest]; [discriminate |].
        apply nonempty_true. intros Hnil.
        destruct (decide (0 <= i <= Z.of_nat (length act) - 1)) as [Hok | Hbad].
        - rewrite filter_cons_True in Hfilter by assumption. discriminate.
        - rewrite filter_cons_True in Hnil by assumption. discriminate. }
      eexists. apply try_except_Ret. rewrite Hindices. cbn [negb].
      unfold bind at 1. unfold Controller.attr at 1. unfold read at 1. fold act.
      rewrite Hactive. cbn [negb]. cbv zeta. rewrite Hfilter, Hinvalid. reflexivity.
    + eexists. apply try_except_Ret. rewrite Hindices. cbn [negb].
      unfold bind at 1. unfold Controller.attr at 1. unfold read at 1. fold act.
      rewrite Hactive. reflexivity.
  - eexists. apply try_except_Ret. rewrite Hindices. reflexivity.
Qed.

(** X14: unlike activation, [deactivate_multiple_prompts] drops the
    positions outside the active list as soon as one is within it: the call
    does what the call on the valid positions alone does. *)
Lemma deactivate_multiple_prompts_skips_invalid (indices : list Z) (self : Controller.t MS) :
  let valid := filter (in_range (PromptsManager.active_prompts (Controller.managers self)))
                 indices in
  valid <> [] ->
  Controller.deactivate_multiple_prompts indices self
  = Controller.deactivate_multiple_prompts valid self.
Proof.
  intros valid Hvalid. subst valid.
  set (act := PromptsManager.active_prompts (Controller.managers self)) in *.
  assert (Hidem : filter (in_range act) (filter (in_range act) indices)
                  = filter (in_range act) indices).
  { rewrite list_filter_filter. apply list_filter_iff. tauto. }
  rewrite (deactivate_multiple_prompts_some_valid indices self) by exact Hvalid.
  rewrite (deactivate_multiple_prompts_some_valid (filter (in_range act) indices) self);
    fold act; rewrite Hidem; [reflexivity | exact Hvalid].
Qed.

(** X15: the order in which the positions are given to
    [deactivate_multiple_prompts] does not matter: two lists that are
    permutations of each other give the same result and the same state. *)
Lemma deactivate_multiple_prompts_any_order (indices indices' : list Z)
    (self : Controller.t MS) :
  indices ≡ₚ indices' ->
  filter (in_range (PromptsManager.active_prompts (Controller.managers self))) indices <> [] ->
  Controller.deactivate_multiple_prompts indices self
  = Controller.deactivate_multiple_prompts indices' self.
Proof.
  intros Hperm Hvalid.
  set (act := PromptsManager.active_prompts (Controller.managers self)) in *.
  assert (Hvalid' : filter (in_range act) indices' <> []).
  { intros Hnil. apply Hvalid. apply Permutation_nil_r. rewrite <- Hnil.
    now apply filter_Permutation. }
  rewrite (deactivate_multiple_prompts_some_valid indices self) by exact Hvalid.
  rewrite (deactivate_multiple_prompts_some_valid indices' self) by exact Hvalid'.
  fold act. now rewrite (sorted_valid_Permutation act indices indices' Hperm).
Qed.

End ActivationGuards.

Lemma activate_prompt_present_witness :
  Controller.activate_prompt 0
    (Sample.session [Sample.A; Sample.B] "" [Sample.A] {["g" := [0]]})
  = (Sample.session [Sample.A; Sample.B] "" [Sample.A] {["g" := [0]]},
     Ret (true, PromptAlreadyActive "A", Some Sample.A)).
Proof.
  apply (activate_prompt_present (MS := World) 0 [Sample.A; Sample.B] Sample.A
           (Sample.session [Sample.A; Sample.B] "" [Sample.A] {["g" := [0]]}));
    [reflexivity | lia | reflexivity | apply list_elem_of_here].
Defined.

Lemma activate_multiple_prompts_invalid_run_witness :
  Controller.activate_multiple_prompts [0; 7; 1; -1]
    (Sample.session [Sample.A; Sample.B] "" [] ∅)
  = (Sample.session [Sample.A; Sample.B] "" [] ∅,
     Ret (false, InvalidPromptIndices [7; -1] 1, [])).
Proof.
  apply (activate_multiple_prompts_invalid_run (MS := World) [0; 7; 1; -1]
           [Sample.A; Sample.B] (Sample.session [Sample.A; Sample.B] "" [] ∅));
    [reflexivity | discriminate |].
  intros Hall. apply Forall_cons in Hall as [_ Hall]. apply Forall_cons in Hall as [Hbad _].
  unfold in_range in Hbad. simpl in Hbad. lia.
Defined.

Lemma deactivate_prompt_invalid_witness :
  exists msg,
    Controller.deactivate_prompt 2
      (Sample.session [Sample.A; Sample.B; Sample.C] "" [Sample.A; Sample.C] ∅)
    = (Sample.session [Sample.A; Sample.B; Sample.C] "" [Sample.A; Sample.C] ∅,
       Ret (false, msg, None)).
Proof.
  apply (deactivate_prompt_invalid (MS := World) 2
           (Sample.session [Sample.A; Sample.B; Sample.C] "" [Sample.A; Sample.C] ∅)).
  unfold in_range. simpl. lia.
Defined.

Lemma deactivate_multiple_prompts_none_valid_witness :
  exists msg,
    Controller.deactivate_multiple_prompts [5; -1]
      (Sample.session [Sample.A; Sample.B; Sample.C] "" [Sample.A; Sample.C] ∅)
    = (Sample.session [Sample.A; Sample.B; Sample.C] "" [Sample.A; Sample.C] ∅,
       Ret (false, msg, [])).
Proof.
  apply (deactivate_multiple_prompts_none_valid (MS := World) [5; -1]
           (Sample.session [Sample.A; Sample.B; Sample.C] "" [Sample.A; Sample.C] ∅)).
  reflexivity.
Defined.

Lemma deactivate_multiple_prompts_skips_invalid_witness :
  Controller.deactivate_multiple_prompts [5; 1; -2]
    (Sample.session [Sample.A; Sample.B; Sample.C] "" [Sample.A; Sample.C] ∅)
  = Controller.deactivate_multiple_prompts [1]
      (Sample.session [Sample.A; Sample.B; Sample.C] "" [Sample.A; Sample.C] ∅).
Proof.
  pose proof (deactivate_multiple_prompts_skips_invalid (MS := World) [5; 1; -2]
                (Sample.session [Sample.A; Sample.B; Sample.C] "" [Sample.A; Sample.C] ∅))
    as Hskip.
  cbv zeta in Hskip.
  assert (Hvalid :
    filter (in_range (PromptsManager.active_prompts
                        (Controller.managers
                           (Sample.session [Sample.A; Sample.B; Sample.C] ""
                                           [Sample.A; Sample.C] ∅))))
           [5; 1; -2] = [1]) by reflexivity.
  rewrite Hvalid in Hskip. apply Hskip. discriminate.
Defined.

Lemma deactivate_multiple_prompts_any_order_witness :
  Controller.deactivate_multiple_prompts [0; 1]
    (Sample.session [Sample.A; Sample.B; Sample.C] "" [Sample.A; Sample.C] ∅)
  = Controller.deactivate_multiple_prompts [1; 0]
      (Sample.session [Sample.A; Sample.B; Sample.C] "" [Sample.A; Sample.C] ∅).
Proof.
  apply (deactivate_multiple_prompts_any_order (MS := World) [0; 1] [1; 0]
           (Sample.session [Sample.A; Sample.B; Sample.C] "" [Sample.A; Sample.C] ∅));
    [apply perm_swap | discriminate].
Defined.

(** ** Editing prompts: add_prompt, update_prompt and delete_prompt *)

Section PromptEditing.

Context {MS : Type}.
Context `{!PresetsManager.Ops MS, !PromptsManager.Ops MS, !GroupsManager.Ops MS}.

(** X16: [add_prompt] checks the preset, then the name, then the
    content: when one of them is empty the call fails with the message of the
    first empty one and no manager is called. *)
Lemma add_prompt_guard (name content : string) (self : Controller.t MS) :
  Controller.current_preset_name self = "" \/ name = "" \/ content = "" ->
  Controller.add_prompt name content self
  = (self,
     Ret (false,
          (if negb (truthy (Controller.current_preset_name self)) then NoPresetSelected
           else if negb (truthy name) then PromptNameEmpty
           else PromptContentEmpty),
          None)).
Proof.
  intros Hguard. apply try_except_Ret. unfold bind at 1. unfold read at 1.
  destruct (truthy (Controller.current_preset_name self)) eqn:Hcur; cbn [negb];
    [| reflexivity].
  destruct (truthy name) eqn:Hname; cbn [negb]; [| reflexivity].
  destruct (truthy content) eqn:Hcontent; cbn [negb]; [| reflexivity].
  apply truthy_true in Hcur, Hname, Hcontent. tauto.
Qed.

(** X17: when [add_prompt] succeeds, a preset was selected, name and
    content were not empty, and the added prompt is returned. *)
Lemma add_prompt_success_run (name content : string) (self self' : Controller.t MS)
    (msg : message) (added : option Prompt.t) :
  Controller.add_prompt name content self = (self', Ret (true, msg, added)) ->
  Controller.current_preset_name self <> "" /\ name <> "" /\ content <> ""
  /\ is_Some added /\ msg = PromptAdded name.
Proof.
  intros Hrun. unfold_methods Hrun. unfold Controller.call in Hrun.
  cbn beta iota zeta in Hrun.
  repeat (case_match; simplify_eq/=).
  repeat match goal with H : negb (truthy _) = false |- _ =>
    apply negb_false_iff, truthy_true in H end.
  eauto 10.
Qed.

(** X18: when [update_prompt] succeeds, a preset was selected, name
    and content were not empty, the index was within the prompt list, and the
    updated prompt is returned. *)
Lemma update_prompt_success_run (index : Z) (name content : string)
    (all_prompts : list Prompt.t) (s0 self self' : Controller.t MS)
    (msg : message) (updated : option Prompt.t) :
  Controller.get_current_prompts self = (s0, Ret all_prompts) ->
  Controller.update_prompt index name content self = (self', Ret (true, msg, updated)) ->
  Controller.current_preset_name self <> "" /\ name <> "" /\ content <> ""
  /\ in_range all_prompts index /\ is_Some updated /\ msg = PromptUpdated name.
Proof.
  intros Hprompts Hrun.
  unfold Controller.update_prompt, try_except in Hrun.
  unfold bind at 1 in Hrun. unfold read at 1 in Hrun.
  destruct (truthy (Controller.current_preset_name self)) eqn:Hcur; cbn [negb] in Hrun;
    [| unfold ret in Hrun; simplify_eq].
  destruct (truthy name) eqn:Hname; cbn [negb] in Hrun; [| unfold ret in Hrun; simplify_eq].
  destruct (truthy content) eqn:Hcontent; cbn [negb] in Hrun;
    [| unfold ret in Hrun; simplify_eq].
  rewrite (bind_Ret _ _ _ _ _ Hprompts) in Hrun.
  destruct (nonempty all_prompts); cbn [negb] in Hrun; [| unfold ret in Hrun; simplify_eq].
  destruct (bool_decide (0 <= index < Z.of_nat (length all_prompts))) eqn:Hrange;
    cbn [negb] in Hrun; [| unfold ret in Hrun; simplify_eq].
  apply bool_decide_eq_true in Hrange.
  apply truthy_true in Hcur, Hname, Hcontent.
  unfold bind, ret, read, Controller.call in Hrun.
  repeat (case_match; simplify_eq/=). eauto 10.
Qed.

(** X19: when [delete_prompt] succeeds, a preset was selected, the
    index was within the prompt list, and the message names the prompt that is
    returned. *)
Lemma delete_prompt_success_run (index : Z) (all_prompts : list Prompt.t)
    (s0 self self' : Controller.t MS) (msg : message) (deleted : option Prompt.t) :
  Controller.get_current_prompts self = (s0, Ret all_prompts) ->
  Controller.delete_prompt index self = (self', Ret (true, msg, deleted)) ->
  Controller.current_preset_name self <> "" /\ in_range all_prompts index
  /\ exists prompt, deleted = Some prompt /\ msg = PromptDeleted (Prompt.name prompt).
Proof.
  intros Hprompts Hrun.
  unfold Controller.delete_prompt, try_except in Hrun.
  unfold bind at 1 in Hrun. unfold read at 1 in Hrun.
  destruct (truthy (Controller.current_preset_name self)) eqn:Hcur; cbn [negb] in Hrun;
    [| unfold ret in Hrun; simplify_eq].
  rewrite (bind_Ret _ _ _ _ _ Hprompts) in Hrun.
  destruct (nonempty all_prompts); cbn [negb] in Hrun; [| unfold ret in Hrun; simplify_eq].
  destruct (bool_decide (0 <= index < Z.of_nat (length all_prompts))) eqn:Hrange;
    cbn [negb] in Hrun; [| unfold ret in Hrun; simplify_eq].
  apply bool_decide_eq_true in Hrange. apply truthy_true in Hcur.
  unfold bind, ret, read, Controller.call in Hrun.
  repeat (case_match; simplify_eq/=). eauto 10.
Qed.

(** X20: [update_prompt] and [delete_prompt] at an index outside the
    prompt list fail and change nothing. *)
Lemma edit_prompt_invalid_index (index : Z) (name content : string)
    (all_prompts : list Prompt.t) (self : Controller.t MS) :
  Controller.get_current_prompts self = (self, Ret all_prompts) ->
  ¬ in_range all_prompts index ->
  (exists msg,
     Controller.update_prompt index name content self = (self, Ret (false, msg, None)))
  /\ (exists msg, Controller.delete_prompt index self = (self, Ret (false, msg, None))).
Proof.
  intros Hprompts Hinvalid. unfold in_range in Hinvalid.

  split.
  - destruct (truthy (Controller.current_preset_name self)) eqn:Hcur,
      (truthy name) eqn:Hname, (truthy content) eqn:Hcontent,
      (nonempty all_prompts) eqn:Hall;
      eexists; apply try_except_Ret; unfold bind at 1; unfold read at 1;
      rewrite Hcur; cbn [negb]; try reflexivity;
      rewrite ?Hname, ?Hcontent; cbn [negb]; try reflexivity;
      rewrite (bind_Ret _ _ _ _ _ Hprompts), Hall; cbn [negb]; try reflexivity;
      (case_bool_decide; [lia | reflexivity]).
  - destruct (truthy (Controller.current_preset_name self)) eqn:Hcur,
      (nonempty all_prompts) eqn:Hall;
      eexists; apply try_except_Ret; unfold bind at 1; unfold read at 1;
      rewrite Hcur; cbn [negb]; try reflexivity;
      rewrite (bind_Ret _ _ _ _ _ Hprompts), Hall; cbn [negb]; try reflexivity;
      (case_bool_decide; [lia | reflexivity]).
Qed.

End PromptEditing.

Lemma add_prompt_guard_witness :
  Controller.add_prompt "" "" (Sample.session [Sample.A] "" [] ∅)
  = (Sample.session [Sample.A] "" [] ∅, Ret (false, PromptNameEmpty, None)).
Proof.
  apply (add_prompt_guard (MS := World) "" "" (Sample.session [Sample.A] "" [] ∅)).
  right. left. reflexivity.
Defined.

Lemma add_prompt_success_run_witness :
  exists self' added,
    Controller.add_prompt "D" "delta" (Sample.session [Sample.A] "" [] ∅)
    = (self', Ret (true, PromptAdded "D", added))
    /\ is_Some added.
Proof.
  do 2 eexists. split; [reflexivity |].
  edestruct (add_prompt_success_run (MS := World) "D" "delta"
               (Sample.session [Sample.A] "" [] ∅))
    as (_ & _ & _ & Hadded & _); [reflexivity |].
  exact Hadded.
Defined.

Lemma update_prompt_success_run_witness :
  exists self' updated,
    Controller.update_prompt 2 "C2" "gamma2"
      (Sample.session [Sample.A; Sample.B; Sample.C] "" [] ∅)
    = (self', Ret (true, PromptUpdated "C2", updated))
    /\ in_range [Sample.A; Sample.B; Sample.C] 2 /\ is_Some updated.
Proof.
  do 2 eexists. split; [reflexivity |].
  edestruct (update_prompt_success_run (MS := World) 2 "C2" "gamma2"
               [Sample.A; Sample.B; Sample.C]
               (Sample.session [Sample.A; Sample.B; Sample.C] "" [] ∅)
               (Sample.session [Sample.A; Sample.B; Sample.C] "" [] ∅))
    as (_ & _ & _ & Hrange & Hupdated & _); [reflexivity | reflexivity |].
  split; [exact Hrange | exact Hupdated].
Defined.

Lemma delete_prompt_success_run_witness :
  exists self' prompt,
    Controller.delete_prompt 2 (Sample.session [Sample.A; Sample.B; Sample.C] "" [] ∅)
    = (self', Ret (true, PromptDeleted (Prompt.name prompt), Some prompt))
    /\ in_range [Sample.A; Sample.B; Sample.C] 2.
Proof.
  do 2 eexists. split; [reflexivity |].
  edestruct (delete_prompt_success_run (MS := World) 2 [Sample.A; Sample.B; Sample.C]
               (Sample.session [Sample.A; Sample.B; Sample.C] "" [] ∅)
               (Sample.session [Sample.A; Sample.B; Sample.C] "" [] ∅))
    as (_ & Hrange & _); [reflexivity | reflexivity |].
  exact Hrange.
Defined.

Lemma edit_prompt_invalid_index_witness :
  (exists msg,
     Controller.update_prompt 3 "X" "chi"
       (Sample.session [Sample.A; Sample.B; Sample.C] "" [] ∅)
     = (Sample.session [Sample.A; Sample.B; Sample.C] "" [] ∅, Ret (false, msg, None)))
  /\ (exists msg,
        Controller.delete_prompt 3 (Sample.session [Sample.A; Sample.B; Sample.C] "" [] ∅)
        = (Sample.session [Sample.A; Sample.B; Sample.C] "" [] ∅, Ret (false, msg, None))).
Proof.
  apply (edit_prompt_invalid_index (MS := World) 3 "X" "chi" [Sample.A; Sample.B; Sample.C]
           (Sample.session [Sample.A; Sample.B; Sample.C] "" [] ∅)); [reflexivity |].
  unfold in_range. simpl. lia.
Defined.

(** ** Editing groups *)

Section GroupEditing.

Context {MS : Type}.
Context `{!PresetsManager.Ops MS, !PromptsManager.Ops MS, !GroupsManager.Ops MS}.

(** X21: when [create_prompt_group] succeeds, a preset was selected
    and the group name was not empty; the current preset is unchanged. *)
Lemma create_prompt_group_success_run (name : string) (indices : list Z)
    (self self' : Controller.t MS) (msg : message) :
  Controller.create_prompt_group name indices self = (self', Ret (true, msg)) ->
  Controller.current_preset_name self <> "" /\ name <> ""
  /\ Controller.current_preset_name self' = Controller.current_preset_name self
  /\ msg = GroupCreated name.
Proof.
  intros Hrun. unfold_methods Hrun. unfold Controller.call in Hrun.
  cbn beta iota zeta in Hrun.
  repeat (case_match; simplify_eq/=).
  repeat match goal with H : negb (truthy _) = false |- _ =>
    apply negb_false_iff, truthy_true in H end.
  done.
Qed.

(** X22: when [update_prompt_group] succeeds, a preset was selected
    and the group was in the registry before the call. *)
Lemma update_prompt_group_success_run (name : string) (indices : list Z)
    (self self' : Controller.t MS) (msg : message) :
  Controller.update_prompt_group name indices self = (self', Ret (true, msg)) ->
  Controller.current_preset_name self <> ""
  /\ is_Some (GroupsManager.prompt_groups (Controller.managers self) !! name)
  /\ msg = GroupUpdated name.
Proof.
  intros Hrun. unfold_methods Hrun. unfold Controller.call in Hrun.
  cbn beta iota zeta in Hrun.
  repeat (case_match; simplify_eq/=).
  repeat match goal with
         | H : negb (truthy _) = false |- _ => apply negb_false_iff, truthy_true in H
         | H : bool_decide _ = false |- _ => apply bool_decide_eq_false in H
         end.
  split; [assumption |]. split; [| reflexivity].
  now apply not_eq_None_Some.
Qed.

(** X23: when [delete_prompt_group] succeeds, a preset was selected
    and the group was in the registry before the call. *)
Lemma delete_prompt_group_success_run (name : string) (self self' : Controller.t MS)
    (msg : message) :
  Controller.delete_prompt_group name self = (self', Ret (true, msg)) ->
  Controller.current_preset_name self <> ""
  /\ is_Some (GroupsManager.prompt_groups (Controller.managers self) !! name)
  /\ msg = GroupDeleted name.
Proof.
  intros Hrun. unfold_methods Hrun. unfold Controller.call in Hrun.
  cbn beta iota zeta in Hrun.
  repeat (case_match; simplify_eq/=).
  repeat match goal with
         | H : negb (truthy _) = false |- _ => apply negb_false_iff, truthy_true in H
         | H : bool_decide _ = false |- _ => apply bool_decide_eq_false in H
         end.
  split; [assumption |]. split; [| reflexivity].
  now apply not_eq_None_Some.
Qed.

(** X24: with a preset selected, [update_prompt_group] and
    [delete_prompt_group] on a name that is not in the registry fail with the
    message that the group does not exist, and no manager is called. *)
Lemma unknown_group_untouched (name : string) (indices : list Z) (self : Controller.t MS) :
  Controller.current_preset_name self <> "" ->
  GroupsManager.prompt_groups (Controller.managers self) !! name = None ->
  Controller.update_prompt_group name indices self = (self, Ret (false, GroupDoesNotExist name))
  /\ Controller.delete_prompt_group name self = (self, Ret (false, GroupDoesNotExist name)).
Proof.
  intros Hcur Hnone. apply truthy_true in Hcur.
  split; apply try_except_Ret; unfold bind at 1; unfold read at 1; rewrite Hcur;
    cbn [negb]; unfold bind at 1; unfold Controller.attr at 1; unfold read at 1;
    now rewrite (bool_decide_eq_true_2 _ Hnone).
Qed.

End GroupEditing.

Lemma create_prompt_group_success_run_witness :
  exists self',
    Controller.create_prompt_group "h" [0]
      (Sample.session [Sample.A] "" [] {["g" := [0]]})
    = (self', Ret (true, GroupCreated "h"))
    /\ Controller.current_preset_name self' = "P".
Proof.
  eexists. split; [reflexivity |].
  edestruct (create_prompt_group_success_run (MS := World) "h" [0]
               (Sample.session [Sample.A] "" [] {["g" := [0]]}))
    as (_ & _ & Hname & _); [reflexivity |].
  exact Hname.
Defined.

Lemma update_prompt_group_success_run_witness :
  exists self',
    Controller.update_prompt_group "g" []
      (Sample.session [Sample.A] "" [] {["g" := [0]]})
    = (self', Ret (true, GroupUpdated "g"))
    /\ is_Some (({["g" := [0]]} : gmap string (list Z)) !! "g").
Proof.
  eexists. split; [reflexivity |].
  edestruct (update_prompt_group_success_run (MS := World) "g" []
               (Sample.session [Sample.A] "" [] {["g" := [0]]}))
    as (_ & Hgroup & _); [reflexivity |].
  exact Hgroup.
Defined.

Lemma delete_prompt_group_success_run_witness :
  exists self',
    Controller.delete_prompt_group "g" (Sample.session [Sample.A] "" [] {["g" := [0]]})
    = (self', Ret (true, GroupDeleted "g"))
    /\ is_Some (({["g" := [0]]} : gmap string (list Z)) !! "g").
Proof.
  eexists. split; [reflexivity |].
  edestruct (delete_prompt_group_success_run (MS := World) "g"
               (Sample.session [Sample.A] "" [] {["g" := [0]]}))
    as (_ & Hgroup & _); [reflexivity |].
  exact Hgroup.
Defined.

Lemma unknown_group_untouched_witness :
  Controller.update_prompt_group "h" [0]
    (Sample.session [Sample.A] "" [] {["g" := [0]]})
  = (Sample.session [Sample.A] "" [] {["g" := [0]]}, Ret (false, GroupDoesNotExist "h"))
  /\ Controller.delete_prompt_group "h" (Sample.session [Sample.A] "" [] {["g" := [0]]})
     = (Sample.session [Sample.A] "" [] {["g" := [0]]}, Ret (false, GroupDoesNotExist "h")).
Proof.
  apply (unknown_group_untouched (MS := World) "h" [0]
           (Sample.session [Sample.A] "" [] {["g" := [0]]}));
    [discriminate | reflexivity].
Defined.

(** ** What the result tuples carry *)

Section ResultContracts.

Context {MS : Type}.
Context `{!PresetsManager.Ops MS, !PromptsManager.Ops MS, !GroupsManager.Ops MS}.

(** X25: in every result tuple that carries an optional prompt
    ([activate_prompt], [deactivate_prompt], [add_prompt], [update_prompt],
    [delete_prompt]) the prompt is there exactly when the call succeeded. *)
Lemma optional_payload_iff_success (op : operation) (self self' : Controller.t MS)
    (success : bool) (msg : message) (prompt : option Prompt.t) :
  invoke op self = (self', Ret (ResultTuple success msg (PromptPayload prompt))) ->
  success = true <-> is_Some prompt.
Proof.
  intros Hrun. destruct op; all_paths Hrun; split; intros Hx; try done;
    try (by apply is_Some_None in Hx); eauto.
Qed.

(** X26: in every result tuple that carries a list of prompts (the
    bulk and group activation and removal) a failure carries the empty list,
    and the message reports a number exactly when the list is not empty: the
    length of the list. *)
Lemma list_payload_run (op : operation) (self self' : Controller.t MS)
    (success : bool) (msg : message) (prompts : list Prompt.t) :
  invoke op self = (self', Ret (ResultTuple success msg (PromptsPayload prompts))) ->
  (success = false -> prompts = [])
  /\ reported_count msg = if nonempty prompts then Some (length prompts) else None.
Proof.
  intros Hrun. destruct op; all_paths Hrun; done.
Qed.

(** X27: [refresh_prompts] returns statistics exactly when it
    succeeds, and the message then follows the number of presets. *)
Lemma stats_payload_run (op : operation) (self self' : Controller.t MS)
    (success : bool) (msg : message) (stats : option Stats) :
  invoke op self = (self', Ret (ResultTuple success msg (StatsPayload stats))) ->
  (success = true <-> is_Some stats)
  /\ (forall st, stats = Some st ->
        msg = if bool_decide (0 < preset_count st)%nat
              then Reloaded (preset_count st) (prompt_count st) else NoPresetsFound).
Proof.
  intros Hrun. destruct op; all_paths Hrun; (split; [split; intros Hx; try done; eauto;
    by apply is_Some_None in Hx |]); intros st Hst; simplify_eq/=; try done.
  all: match goal with H : bool_decide _ = _ |- _ => now rewrite H end.
Qed.

(** X28: the count of [clear_active_prompts] is -1 on failure and not
    negative on success, where it is 0 exactly when the message says nothing
    was active. *)
Lemma count_payload_run (op : operation) (self self' : Controller.t MS)
    (success : bool) (msg : message) (count : Z) :
  invoke op self = (self', Ret (ResultTuple success msg (CountPayload count))) ->
  if success then 0 <= count /\ (count = 0 <-> msg = NothingActive)
  else count = -1.
Proof.
  intros Hrun. destruct op; all_paths Hrun; try done;
    repeat match goal with
           | H : bool_decide _ = false |- _ => apply bool_decide_eq_false in H
           | H : bool_decide _ = true |- _ => apply bool_decide_eq_true in H
           end;
    (split; [lia | split; intros Hx; try done; lia]).
Qed.

End ResultContracts.

Lemma optional_payload_iff_success_witness :
  exists self' success msg prompt,
    invoke (op_deactivate_prompt 1)
      (Sample.session [Sample.A; Sample.B] "" [Sample.B; Sample.A] ∅)
    = (self', Ret (ResultTuple success msg (PromptPayload prompt)))
    /\ prompt = Some Sample.A
    /\ (success = true <-> is_Some prompt).
Proof.
  do 4 eexists. split; [reflexivity |]. split; [reflexivity |].
  eapply (optional_payload_iff_success (MS := World) (op_deactivate_prompt 1)
            (Sample.session [Sample.A; Sample.B] "" [Sample.B; Sample.A] ∅)).
  reflexivity.
Defined.

Lemma list_payload_run_witness :
  exists self' success msg prompts,
    invoke (op_activate_multiple_prompts [1; 0])
      (Sample.session [Sample.A; Sample.B] "" [Sample.A] ∅)
    = (self', Ret (ResultTuple success msg (PromptsPayload prompts)))
    /\ prompts = [Sample.B]
    /\ reported_count msg = Some 1%nat.
Proof.
  do 4 eexists. split; [reflexivity |]. split; [reflexivity |].
  edestruct (list_payload_run (MS := World) (op_activate_multiple_prompts [1; 0])
               (Sample.session [Sample.A; Sample.B] "" [Sample.A] ∅))
    as [_ Hcount]; [reflexivity |].
  exact Hcount.
Defined.

Lemma stats_payload_run_witness :
  exists self' success msg,
    invoke op_refresh_prompts Sample.before_empty_refresh
    = (self', Ret (ResultTuple success msg
                     (StatsPayload (Some {| preset_count := 0; prompt_count := 0 |}))))
    /\ (success = true <-> is_Some (Some {| preset_count := 0; prompt_count := 0 |})).
Proof.
  do 3 eexists. split; [reflexivity |].
  edestruct (stats_payload_run (MS := World) op_refresh_prompts Sample.before_empty_refresh)
    as [Hiff _]; [reflexivity |].
  exact Hiff.
Defined.

Lemma count_payload_run_witness :
  exists self' msg,
    invoke op_clear_active_prompts
      (Sample.session [Sample.A; Sample.B] "" [Sample.B; Sample.A] ∅)
    = (self', Ret (ResultTuple true msg (CountPayload 2)))
    /\ (2 = 0 <-> msg = NothingActive).
Proof.
  do 2 eexists. split; [reflexivity |].
  pose proof (count_payload_run (MS := World) op_clear_active_prompts
                (Sample.session [Sample.A; Sample.B] "" [Sample.B; Sample.A] ∅)
                (Controller.mk "P" (Sample.world [Sample.A; Sample.B] "" [] ∅))
                true (Cleared 2) 2 eq_refl) as [_ Hiff].
  exact Hiff.
Defined.

(** ** The current preset name is changed by three operations only *)

Section SelectionSteps.

Context {MS : Type}.
Context `{!PresetsManager.Ops MS, !PromptsManager.Ops MS, !GroupsManager.Ops MS}.









End SelectionSteps.


Section SelectionFrame.

Context {MS : Type}.
Context `{!PresetsManager.Ops MS, !PromptsManager.Ops MS, !GroupsManager.Ops MS}.


End SelectionFrame.


(** ** The system prompt *)

Section SystemPrompt.

Context {MS : Type}.
Context `{!PresetsManager.Ops MS, !PromptsManager.Ops MS, !GroupsManager.Ops MS}.

(** X30: [process_llm_request] never loses the request: the user text
    is returned as it came, the system text it returns ends with the original
    system text and begins with the prefix of the preset. *)
Lemma process_llm_request_keeps_system_text (system_text user_text prefix : string)
    (self self' : Controller.t MS) :
  Controller.get_current_prefix self = (self', Ret prefix) ->
  exists new_system,
    Controller.process_llm_request system_text user_text self
    = (self', Ret (new_system, user_text))
    /\ (exists head, new_system = head +:+ system_text)
    /\ (exists tail, new_system = prefix +:+ tail).
Proof.
  intros Hprefix. eexists. split; [apply (process_llm_request_run _ _ _ _ _ Hprefix) |].
  set (active := PromptsManager.active_prompts (Controller.managers self)).
  unfold prepend_block.
  set (contents := filter (fun c => c <> "") (Prompt.content <$> active)).
  split.
  - unfold join_block.
    destruct ((if truthy prefix then [prefix] else []) ++ contents) as [| b block];
      [now exists "" |].
    destruct (truthy system_text) eqn:Hsys.
    + exists (String.concat Controller.blank_line (b :: block) +:+ Controller.blank_line).
      now rewrite string_append_assoc.
    + apply truthy_false in Hsys. subst system_text.
      exists (String.concat Controller.blank_line (b :: block)).
      now rewrite string_append_nil_r.
  - destruct (truthy prefix) eqn:Hp; [| apply truthy_false in Hp; subst prefix; now eexists].
    cbn [app]. unfold join_block.
    assert (Hconcat : exists rest,
              String.concat Controller.blank_line (prefix :: contents) = prefix +:+ rest).
    { destruct contents as [| c contents']; cbn [String.concat].
      - exists "". now rewrite string_append_nil_r.
      - now eexists. }
    destruct Hconcat as [rest Hrest]. rewrite Hrest.
    destruct (truthy system_text); [| now eexists].
    eexists. now rewrite string_append_assoc.
Qed.

End SystemPrompt.

Lemma process_llm_request_keeps_system_text_witness :
  exists new_system,
    Controller.process_llm_request "orig" "u"
      (Sample.session [Sample.A; Sample.B] "SYS" [Sample.B] ∅)
    = (Sample.session [Sample.A; Sample.B] "SYS" [Sample.B] ∅, Ret (new_system, "u"))
    /\ (exists head, new_system = head +:+ "orig")
    /\ (exists tail, new_system = "SYS" +:+ tail).
Proof.
  apply (process_llm_request_keeps_system_text (MS := World) "orig" "u" "SYS"
           (Sample.session [Sample.A; Sample.B] "SYS" [Sample.B] ∅)).
  reflexivity.
Defined.
